(** * chubaofs: the volume commands of the admin CLI and the node supervisor

    A shallow embedding of [cli/cmd/vol.go] (the [volume] sub-commands of
    the administration client) and of [cmd/cmd.go] (the [main] function of
    the storage daemon), followed by the properties the specification
    states about them.

    Conventions.
    - Go's [int], [uint64] and [uint8] are [Z]; the only narrowing
      conversion of the source, [uint8(optReplicas)], is written out.
    - A Go [string] is a sequence of bytes, hence a Rocq [string].
    - A pair [(ptr, err)] returned by a client call is
      [option T * option Error]: [None] on the left is the nil pointer,
      [None] on the right the nil error.
    - Every command is a function from the environment (what the operator
      types, what the master answers) to the sequence of observable events
      it performs, the way it ends, and the locals it leaves behind.
    - Text is carried, never rendered: a format string is spelled as in
      the source (its escapes stand for themselves) and kept with its
      arguments. *)

From Stdlib Require Import ZArith List String Ascii Bool Lia.
From Stdlib Require Import Sorted Permutation.
Import ListNotations.
Open Scope Z_scope.
Open Scope string_scope.

(* ================================================================== *)
(** * Bytes, hexadecimal text, MD5 *)
(* ================================================================== *)

Module Bytes.

(** [[]byte(s)] *)
Definition of_string (s : string) : list Z :=
  map (fun c => Z.of_N (N_of_ascii c)) (list_ascii_of_string s).

Definition hexdigit (n : Z) : ascii :=
  match n with
  | 0 => "0" | 1 => "1" | 2 => "2" | 3 => "3" | 4 => "4" | 5 => "5"
  | 6 => "6" | 7 => "7" | 8 => "8" | 9 => "9" | 10 => "a" | 11 => "b"
  | 12 => "c" | 13 => "d" | 14 => "e" | _ => "f"
  end%char.

(** [hex.EncodeToString]: two lower-case digits per byte, high nibble
    first. *)
Fixpoint EncodeToString (bs : list Z) : string :=
  match bs with
  | [] => EmptyString
  | b :: rest =>
      String (hexdigit (Z.shiftr b 4))
        (String (hexdigit (Z.land b 15)) (EncodeToString rest))
  end.

(** [strings.ToLower] on ASCII text (the only text [calcAuthKey] hands to
    it is the output of [hex.EncodeToString]). *)
Definition lower (c : ascii) : ascii :=
  let n := N_of_ascii c in
  if ((65 <=? n) && (n <=? 90))%N then ascii_of_N (n + 32) else c.

Fixpoint ToLower (s : string) : string :=
  match s with
  | EmptyString => EmptyString
  | String c rest => String (lower c) (ToLower rest)
  end.

End Bytes.

(** [crypto/md5] is Go's standard library; the digest is computed here as
    RFC 1321 defines it, on 32-bit words held in [Z]. *)
Module MD5.

Definition w32 (x : Z) : Z := x mod 2 ^ 32.

Definition rotl32 (x c : Z) : Z :=
  w32 (Z.lor (Z.shiftl x c) (Z.shiftr x (32 - c))).

Definition not32 (x : Z) : Z := Z.lxor x 4294967295.

Definition K : list Z :=
  [ 3614090360; 3905402710; 606105819; 3250441966;
    4118548399; 1200080426; 2821735955; 4249261313;
    1770035416; 2336552879; 4294925233; 2304563134;
    1804603682; 4254626195; 2792965006; 1236535329;
    4129170786; 3225465664; 643717713; 3921069994;
    3593408605; 38016083; 3634488961; 3889429448;
    568446438; 3275163606; 4107603335; 1163531501;
    2850285829; 4243563512; 1735328473; 2368359562;
    4294588738; 2272392833; 1839030562; 4259657740;
    2763975236; 1272893353; 4139469664; 3200236656;
    681279174; 3936430074; 3572445317; 76029189;
    3654602809; 3873151461; 530742520; 3299628645;
    4096336452; 1126891415; 2878612391; 4237533241;
    1700485571; 2399980690; 4293915773; 2240044497;
    1873313359; 4264355552; 2734768916; 1309151649;
    4149444226; 3174756917; 718787259; 3951481745 ].

Definition shifts : list Z :=
  [ 7; 12; 17; 22; 7; 12; 17; 22; 7; 12; 17; 22; 7; 12; 17; 22;
    5; 9; 14; 20; 5; 9; 14; 20; 5; 9; 14; 20; 5; 9; 14; 20;
    4; 11; 16; 23; 4; 11; 16; 23; 4; 11; 16; 23; 4; 11; 16; 23;
    6; 10; 15; 21; 6; 10; 15; 21; 6; 10; 15; 21; 6; 10; 15; 21 ].

Record digest := { dA : Z; dB : Z; dC : Z; dD : Z }.

Definition init : digest :=
  {| dA := 1732584193; dB := 4023233417; dC := 2562383102; dD := 271733878 |}.

(** Little-endian 32-bit word number [g] of a 64-byte block. *)
Definition word (block : list Z) (g : nat) : Z :=
  let b k := nth (4 * g + k) block 0 in
  b 0%nat + Z.shiftl (b 1%nat) 8 + Z.shiftl (b 2%nat) 16 + Z.shiftl (b 3%nat) 24.

Definition round (block : list Z) (st : digest) (i : nat) : digest :=
  let '(Build_digest a b c d) := st in
  let '(f, g) :=
    if (i <? 16)%nat then (Z.lor (Z.land b c) (Z.land (not32 b) d), i)
    else if (i <? 32)%nat then
      (Z.lor (Z.land d b) (Z.land (not32 d) c), ((5 * i + 1) mod 16)%nat)
    else if (i <? 48)%nat then (Z.lxor b (Z.lxor c d), ((3 * i + 5) mod 16)%nat)
    else (Z.lxor c (Z.lor b (not32 d)), ((7 * i) mod 16)%nat) in
  let f' := w32 (f + a + nth i K 0 + word block g) in
  {| dA := d; dB := w32 (b + rotl32 f' (nth i shifts 0)); dC := b; dD := c |}.

Definition compress (st : digest) (block : list Z) : digest :=
  let r := fold_left (round block) (seq 0 64) st in
  {| dA := w32 (dA st + dA r); dB := w32 (dB st + dB r);
     dC := w32 (dC st + dC r); dD := w32 (dD st + dD r) |}.

(** [n] as [k] little-endian bytes. *)
Fixpoint le_bytes (k : nat) (n : Z) : list Z :=
  match k with
  | O => []
  | S k' => Z.land n 255 :: le_bytes k' (Z.shiftr n 8)
  end.

(** The message followed by 0x80, zero bytes up to 56 modulo 64, and the
    bit length on 64 bits. *)
Definition pad (msg : list Z) : list Z :=
  let len := Z.of_nat (List.length msg) in
  let zeros := Z.to_nat ((55 - len) mod 64) in
  (msg ++ 128 :: repeat 0 zeros ++ le_bytes 8 ((8 * len) mod 2 ^ 64))%list.

Fixpoint blocks (n : nat) (bs : list Z) : list (list Z) :=
  match n with
  | O => []
  | S n' => firstn 64 bs :: blocks n' (skipn 64 bs)
  end.

Definition sum (msg : list Z) : list Z :=
  let p := pad msg in
  let r := fold_left compress (blocks (List.length p / 64) p) init in
  (le_bytes 4 (dA r) ++ le_bytes 4 (dB r) ++ le_bytes 4 (dC r)
     ++ le_bytes 4 (dD r))%list.

End MD5.

(** [calcAuthKey] (vol.go:542): the lower-case hexadecimal MD5 digest of
    the bytes of [key]. *)
Definition calcAuthKey (key : string) : string :=
  let cipherStr := MD5.sum (Bytes.of_string key) in
  Bytes.ToLower (Bytes.EncodeToString cipherStr).

(* ================================================================== *)
(** * Data model of the volume commands *)
(* ================================================================== *)

(** The [error] values the commands can hold. *)
Inductive Error : Type :=
| RemoteError (cause : string)        (* returned by a master client call *)
| NumError (func num : string)        (* strconv: [num] has invalid syntax *)
| Errorf (msg : string).              (* built by [fmt.Errorf] *)

(** The fields of the protocol structures that vol.go reads or writes. *)
Module proto.

Record SimpleVolView : Type := {
  Name : string;
  Owner : string;
  Capacity : Z;           (* uint64, GB *)
  DpReplicaNum : Z;       (* uint8 *)
  FollowerRead : bool;
  Authenticate : bool;
  EnableToken : bool;
  AutoRepair : bool;
  ZoneName : string;
  Status : Z
}.

Record UserInfo : Type := { UserID : string }.

Record UserTransferVolParam : Type := {
  Volume : string;
  UserSrc : string;
  UserDst : string;
  Force : bool
}.

Definition set_Capacity (v : SimpleVolView) (x : Z) : SimpleVolView :=
  {| Name := Name v; Owner := Owner v; Capacity := x;
     DpReplicaNum := DpReplicaNum v; FollowerRead := FollowerRead v;
     Authenticate := Authenticate v; EnableToken := EnableToken v;
     AutoRepair := AutoRepair v; ZoneName := ZoneName v; Status := Status v |}.

Definition set_DpReplicaNum (v : SimpleVolView) (x : Z) : SimpleVolView :=
  {| Name := Name v; Owner := Owner v; Capacity := Capacity v;
     DpReplicaNum := x; FollowerRead := FollowerRead v;
     Authenticate := Authenticate v; EnableToken := EnableToken v;
     AutoRepair := AutoRepair v; ZoneName := ZoneName v; Status := Status v |}.

Definition set_FollowerRead (v : SimpleVolView) (x : bool) : SimpleVolView :=
  {| Name := Name v; Owner := Owner v; Capacity := Capacity v;
     DpReplicaNum := DpReplicaNum v; FollowerRead := x;
     Authenticate := Authenticate v; EnableToken := EnableToken v;
     AutoRepair := AutoRepair v; ZoneName := ZoneName v; Status := Status v |}.

Definition set_Authenticate (v : SimpleVolView) (x : bool) : SimpleVolView :=
  {| Name := Name v; Owner := Owner v; Capacity := Capacity v;
     DpReplicaNum := DpReplicaNum v; FollowerRead := FollowerRead v;
     Authenticate := x; EnableToken := EnableToken v;
     AutoRepair := AutoRepair v; ZoneName := ZoneName v; Status := Status v |}.

Definition set_EnableToken (v : SimpleVolView) (x : bool) : SimpleVolView :=
  {| Name := Name v; Owner := Owner v; Capacity := Capacity v;
     DpReplicaNum := DpReplicaNum v; FollowerRead := FollowerRead v;
     Authenticate := Authenticate v; EnableToken := x;
     AutoRepair := AutoRepair v; ZoneName := ZoneName v; Status := Status v |}.

Definition set_AutoRepair (v : SimpleVolView) (x : bool) : SimpleVolView :=
  {| Name := Name v; Owner := Owner v; Capacity := Capacity v;
     DpReplicaNum := DpReplicaNum v; FollowerRead := FollowerRead v;
     Authenticate := Authenticate v; EnableToken := EnableToken v;
     AutoRepair := x; ZoneName := ZoneName v; Status := Status v |}.

Definition set_ZoneName (v : SimpleVolView) (x : string) : SimpleVolView :=
  {| Name := Name v; Owner := Owner v; Capacity := Capacity v;
     DpReplicaNum := DpReplicaNum v; FollowerRead := FollowerRead v;
     Authenticate := Authenticate v; EnableToken := EnableToken v;
     AutoRepair := AutoRepair v; ZoneName := x; Status := Status v |}.

End proto.

(** Formatted text is kept as the format string, spelled as in the
    source, with the arguments it is applied to. *)
Inductive Arg : Type :=
| AStr (s : string)
| AInt (n : Z)
| AErr (e : Error).

Inductive Text : Type :=
| Lit (s : string)
| Sprintf (format : string) (a : list Arg).

(** The calls of the master client used by the volume commands. *)
Inductive RemoteCall : Type :=
| GetVolumeSimpleInfo (volName : string)
| CreateVolume (volName owner : string) (mpCount dpSize capacity replicas : Z)
    (followerRead autoRepair : bool) (zoneName : string)
| UpdateVolume (volName : string) (capacity replicas : Z)
    (followerRead authenticate enableToken autoRepair : bool)
    (authKey zoneName : string)
| DeleteVolume (volName authKey : string)
| GetUserInfo (userID : string)
| TransferVol (param : proto.UserTransferVolParam).

(** What a command does that can be seen from outside, in order. *)
Inductive Event : Type :=
| Stdout (format : string) (a : list Arg)
| StdoutString (content : list Text)     (* [stdout(confirmString.String())] *)
| Errout (format : string) (a : list Arg)
| Scanln (userConfirm : string)           (* [fmt.Scanln(&userConfirm)] *)
| Call (c : RemoteCall).

Inductive Outcome : Type :=
| Returned
| Exited (code : Z)
| Panicked.                               (* nil pointer dereference *)

(** One execution of a command: its events, how it ended, and the last
    value of its local [err]. *)
Record Run : Type := {
  trace : list Event;
  outcome : Outcome;
  err : option Error
}.

(** Everything a command reads from outside itself.  [userConfirm] is the
    word [fmt.Scanln] stores (empty when the operator just presses
    return).  [errout] and [formatEnabledDisabled] are helpers of the
    [cmd] package defined outside vol.go: [errout] writes to the error
    stream and, depending on the version, ends the process
    ([erroutExit = Some code]) or returns ([None]). *)
Record Env : Type := {
  userConfirm : string;
  getVolumeSimpleInfo : string -> option proto.SimpleVolView * option Error;
  getUserInfo : string -> option proto.UserInfo * option Error;
  reply : RemoteCall -> option Error;
  erroutExit : option Z;
  formatEnabledDisabled : bool -> string
}.

(* ------------------------------------------------------------------ *)
(** ** Sequencing *)

Definition done (e : option Error) : Run :=
  {| trace := []; outcome := Returned; err := e |}.

Definition panic (e : option Error) : Run :=
  {| trace := []; outcome := Panicked; err := e |}.

Definition emit (ev : Event) (k : Run) : Run :=
  {| trace := ev :: trace k; outcome := outcome k; err := err k |}.

Notation "ev ;; k" := (emit ev k) (at level 61, right associativity).

(** [errout(format, a...)] followed by [k]. *)
Definition errout (env : Env) (format : string) (a : list Arg)
    (e : option Error) (k : Run) : Run :=
  match erroutExit env with
  | Some code => Errout format a ;;
                 {| trace := []; outcome := Exited code; err := e |}
  | None => Errout format a ;; k
  end.

(** [defer func() { if err != nil { errout(format, a..., err) } }()]
    around the body [r]: runs when the body returns or panics, not when it
    has left the process. *)
Definition deferErrout (env : Env) (format : string) (a : list Arg)
    (r : Run) : Run :=
  match outcome r, err r with
  | Exited _, _ => r
  | _, None => r
  | o, Some e =>
      {| trace := (trace r ++ [Errout format (a ++ [AErr e])])%list;
         outcome := match erroutExit env with
                    | Some code => Exited code
                    | None => o
                    end;
         err := Some e |}
  end.

(** [strconv.ParseBool] *)
Definition ParseBool (str : string) : bool * option Error :=
  if (str =? "1") || (str =? "t") || (str =? "T") || (str =? "true")
     || (str =? "TRUE") || (str =? "True")
  then (true, None)
  else if (str =? "0") || (str =? "f") || (str =? "F") || (str =? "false")
          || (str =? "FALSE") || (str =? "False")
  then (false, None)
  else (false, Some (NumError "ParseBool" str)).

(** The conversion [uint8(n)]. *)
Definition uint8 (n : Z) : Z := n mod 2 ^ 8.

(* ================================================================== *)
(** * volume create (vol.go:103-171) *)
(* ================================================================== *)

Definition cmdVolDefaultMPCount : Z := 3.
Definition cmdVolDefaultDPSize : Z := 120.
Definition cmdVolDefaultCapacity : Z := 10.
Definition cmdVolDefaultReplicas : Z := 3.
Definition cmdVolDefaultFollowerReader : bool := true.
Definition cmdVolDefaultZoneName : string := "default".

Module VolCreate.

(** The variables the flags of the command are bound to. *)
Record Flags : Type := {
  optMPCount : Z;
  optDPSize : Z;
  optCapacity : Z;
  optReplicas : Z;
  optFollowerRead : bool;
  optAutoRepair : bool;
  optYes : bool;
  optZoneName : string
}.

(** Their values when no flag is given (the defaults of the
    [cmd.Flags()] registrations, lines 162-169). *)
Definition defaults : Flags :=
  {| optMPCount := cmdVolDefaultMPCount;
     optDPSize := cmdVolDefaultDPSize;
     optCapacity := cmdVolDefaultCapacity;
     optReplicas := cmdVolDefaultReplicas;
     optFollowerRead := cmdVolDefaultFollowerReader;
     optAutoRepair := false;
     optYes := false;
     optZoneName := cmdVolDefaultZoneName |}.

Definition call (f : Flags) (volumeName userID : string) : RemoteCall :=
  CreateVolume volumeName userID (optMPCount f) (optDPSize f) (optCapacity f)
    (optReplicas f) (optFollowerRead f) (optAutoRepair f) (optZoneName f).

(** The summary printed before the question (lines 134-145). *)
Definition summary (env : Env) (f : Flags) (volumeName userID : string)
    (k : Run) : Run :=
  Stdout "Create a new volume:\n" [] ;;
  Stdout "  Name                : %v\n" [AStr volumeName] ;;
  Stdout "  Owner               : %v\n" [AStr userID] ;;
  Stdout "  Dara partition size : %v GB\n" [AInt (optDPSize f)] ;;
  Stdout "  Meta partition count: %v\n" [AInt (optMPCount f)] ;;
  Stdout "  Capacity            : %v GB\n" [AInt (optCapacity f)] ;;
  Stdout "  Replicas            : %v\n" [AInt (optReplicas f)] ;;
  Stdout "  Allow follower read : %v\n"
    [AStr (formatEnabledDisabled env (optFollowerRead f))] ;;
  Stdout "  Auto repair         : %v\n"
    [AStr (formatEnabledDisabled env (optAutoRepair f))] ;;
  Stdout "  ZoneName            : %v\n" [AStr (optZoneName f)] ;;
  Stdout "\nConfirm (yes/no)[yes]: " [] ;;
  k.

(** Lines 154-159. *)
Definition create (env : Env) (f : Flags) (volumeName userID : string) : Run :=
  let c := call f volumeName userID in
  let err := reply env c in
  let success := Stdout "Create volume success.\n" [] ;; done err in
  Call c ;;
  match err with
  | Some e => errout env "Create volume failed case:\n%v\n" [AErr e] err success
  | None => success
  end.

End VolCreate.

(** The [Run] function of [newVolCreateCmd]. *)
Definition newVolCreateCmd (env : Env) (f : VolCreate.Flags)
    (volumeName userID : string) : Run :=
  if negb (VolCreate.optYes f) then
    VolCreate.summary env f volumeName userID (
    Scanln (userConfirm env) ;;
    if negb (userConfirm env =? "yes")
       && negb (String.length (userConfirm env) =? 0)%nat
    then Stdout "Abort by user.\n" [] ;; done None
    else VolCreate.create env f volumeName userID)
  else VolCreate.create env f volumeName userID.

(* ================================================================== *)
(** * volume delete (vol.go:388-434) *)
(* ================================================================== *)

Module VolDelete.

(** Lines 415-423. *)
Definition delete (env : Env) (volumeName : string) : Run :=
  let '(svv, err) := getVolumeSimpleInfo env volumeName in
  let rest :=
    match svv with
    | None => panic err                      (* [svv.Owner] on nil *)
    | Some svv =>
        let c := DeleteVolume volumeName (calcAuthKey (proto.Owner svv)) in
        let err := reply env c in
        let success := Stdout "Delete volume success.\n" [] ;; done err in
        Call c ;;
        match err with
        | Some e => errout env "Delete volume failed:\n%v\n" [AErr e] err success
        | None => success
        end
    end in
  Call (GetVolumeSimpleInfo volumeName) ;;
  match err with
  | Some e => errout env "Delete volume failed:\n%v\n" [AErr e] err rest
  | None => rest
  end.

End VolDelete.

(** The [Run] function of [newVolDeleteCmd]. *)
Definition newVolDeleteCmd (env : Env) (optYes : bool) (volumeName : string)
    : Run :=
  if negb optYes then
    Stdout "Delete volume [%v] (yes/no)[no]:" [AStr volumeName] ;;
    Scanln (userConfirm env) ;;
    if negb (userConfirm env =? "yes")
    then Stdout "Abort by user.\n" [] ;; done None
    else VolDelete.delete env volumeName
  else VolDelete.delete env volumeName.

(* ================================================================== *)
(** * volume transfer (vol.go:436-498) *)
(* ================================================================== *)

Module VolTransfer.

(** Lines 471-492. *)
Definition transfer (env : Env) (optForce : bool) (volume userID : string)
    : Run :=
  let '(volSimpleView, err) := getVolumeSimpleInfo env volume in
  Call (GetVolumeSimpleInfo volume) ;;
  match err with
  | Some _ => done err
  | None =>
      match volSimpleView with
      | None => panic err                    (* [volSimpleView.Status] on nil *)
      | Some volSimpleView =>
          if negb (proto.Status volSimpleView =? 0)%Z
          then done (Some (Errorf "volume status abnormal"))
          else
            let '(userInfo, err) := getUserInfo env userID in
            Call (GetUserInfo userID) ;;
            match err with
            | Some _ => done err
            | None =>
                match userInfo with
                | None => panic err          (* [userInfo.UserID] on nil *)
                | Some userInfo =>
                    let param :=
                      {| proto.Volume := volume;
                         proto.UserSrc := proto.Owner volSimpleView;
                         proto.UserDst := proto.UserID userInfo;
                         proto.Force := optForce |} in
                    Call (TransferVol param) ;;
                    done (reply env (TransferVol param))
                end
            end
      end
  end.

End VolTransfer.

(** The [Run] function of [newVolTransferCmd]. *)
Definition newVolTransferCmd (env : Env) (optYes optForce : bool)
    (volume userID : string) : Run :=
  deferErrout env "Transfer volume [%v] to user [%v] failed: %v\n"
    [AStr volume; AStr userID]
    (if negb optYes then
       Stdout "Transfer volume [%v] to user [%v] (yes/no)[no]:"
         [AStr volume; AStr userID] ;;
       Scanln (userConfirm env) ;;
       if negb (userConfirm env =? "yes")
       then Stdout "Abort by user.\n" [] ;; done None
       else VolTransfer.transfer env optForce volume userID
     else VolTransfer.transfer env optForce volume userID).

(* ================================================================== *)
(** * volume set (vol.go:179-319) *)
(* ================================================================== *)

Module VolSet.

(** The variables the flags of the command are bound to. *)
Record Flags : Type := {
  optCapacity : Z;             (* uint64 *)
  optReplicas : Z;             (* int *)
  optFollowerRead : string;
  optAuthenticate : string;
  optEnableToken : string;
  optAutoRepair : string;
  optZoneName : string;
  optYes : bool
}.

(** Their values when no flag is given (lines 309-316). *)
Definition defaults : Flags :=
  {| optCapacity := 0; optReplicas := 0; optFollowerRead := "";
     optAuthenticate := ""; optEnableToken := ""; optAutoRepair := "";
     optZoneName := ""; optYes := false |}.

(** The variables the body works on once the snapshot is there: [vv] is
    the fetched structure, which the command then modifies in place. *)
Record Locals : Type := {
  vv : proto.SimpleVolView;
  confirmString : list Text;
  isChange : bool
}.

(** Where the walk over the fields stands: still going, or left through a
    [return] with [err] set. *)
Inductive Flow : Type :=
| Next (l : Locals)
| Return (l : Locals) (e : Error).

Definition andThen (x : Flow) (step : Locals -> Flow) : Flow :=
  match x with
  | Next l => step l
  | Return l e => Return l e
  end.

Definition WriteString (l : Locals) (t : Text) : Locals :=
  {| vv := vv l; confirmString := (confirmString l ++ [t])%list;
     isChange := isChange l |}.

Definition changed (l : Locals) : Locals :=
  {| vv := vv l; confirmString := confirmString l; isChange := true |}.

Definition assign (l : Locals) (v : proto.SimpleVolView) : Locals :=
  {| vv := v; confirmString := confirmString l; isChange := isChange l |}.

(** Lines 208-209. *)
Definition start (v : proto.SimpleVolView) : Locals :=
  WriteString
    (WriteString {| vv := v; confirmString := []; isChange := false |}
       (Lit "Volume configuration changes:\n"))
    (Sprintf "  Name                : %v\n" [AStr (proto.Name v)]).

(** Lines 210-216. *)
Definition capacity (f : Flags) (l : Locals) : Locals :=
  if (0 <? optCapacity f)%Z then
    let l := changed l in
    let l := WriteString l
      (Sprintf "  Capacity            : %v GB -> %v GB\n"
         [AInt (proto.Capacity (vv l)); AInt (optCapacity f)]) in
    assign l (proto.set_Capacity (vv l) (optCapacity f))
  else
    WriteString l
      (Sprintf "  Capacity            : %v GB\n" [AInt (proto.Capacity (vv l))]).

(** Lines 217-223. *)
Definition replicas (f : Flags) (l : Locals) : Locals :=
  if (0 <? optReplicas f)%Z then
    let l := changed l in
    let l := WriteString l
      (Sprintf "  Replicas            : %v -> %v\n"
         [AInt (proto.DpReplicaNum (vv l)); AInt (optReplicas f)]) in
    assign l (proto.set_DpReplicaNum (vv l) (uint8 (optReplicas f)))
  else
    WriteString l
      (Sprintf "  Replicas            : %v\n" [AInt (proto.DpReplicaNum (vv l))]).

(** The block the source repeats for each of the four boolean options
    (lines 224-234, 236-246, 247-257, 258-268): [opt] is the text of the
    flag, [get] and [set] the field of [vv] it governs, [line] the label of
    the field in the summary. *)
Definition boolean (env : Env) (opt : string) (line : string)
    (get : proto.SimpleVolView -> bool)
    (set : proto.SimpleVolView -> bool -> proto.SimpleVolView)
    (l : Locals) : Flow :=
  if negb (opt =? "") then
    let l := changed l in
    match ParseBool opt with
    | (_, Some e) => Return l e
    | (enable, None) =>
        let l := WriteString l
          (Sprintf (line ++ "%v -> %v\n")
             [AStr (formatEnabledDisabled env (get (vv l)));
              AStr (formatEnabledDisabled env enable)]) in
        Next (assign l (set (vv l) enable))
    end
  else
    Next (WriteString l
            (Sprintf (line ++ "%v\n")
               [AStr (formatEnabledDisabled env (get (vv l)))])).

Definition followerRead (env : Env) (f : Flags) : Locals -> Flow :=
  boolean env (optFollowerRead f) "  Allow follower read : "
    proto.FollowerRead proto.set_FollowerRead.

Definition authenticate (env : Env) (f : Flags) : Locals -> Flow :=
  boolean env (optAuthenticate f) "  Authenticate        : "
    proto.Authenticate proto.set_Authenticate.

Definition enableToken (env : Env) (f : Flags) : Locals -> Flow :=
  boolean env (optEnableToken f) "  EnableToken         : "
    proto.EnableToken proto.set_EnableToken.

Definition autoRepair (env : Env) (f : Flags) : Locals -> Flow :=
  boolean env (optAutoRepair f) "  AutoRepair          : "
    proto.AutoRepair proto.set_AutoRepair.

(** Lines 269-275. *)
Definition zoneName (f : Flags) (l : Locals) : Locals :=
  if negb ("" =? optZoneName f) then
    let l := changed l in
    let l := WriteString l
      (Sprintf "  ZoneName            : %v -> %v\n"
         [AStr (proto.ZoneName (vv l)); AStr (optZoneName f)]) in
    assign l (proto.set_ZoneName (vv l) (optZoneName f))
  else
    WriteString l
      (Sprintf "  ZoneName            : %v\n" [AStr (proto.ZoneName (vv l))]).

(** Lines 208-275: the walk over the seven fields. *)
Definition diff (env : Env) (f : Flags) (v : proto.SimpleVolView) : Flow :=
  andThen (andThen (andThen (andThen (andThen
    (Next (replicas f (capacity f (start v))))
    (followerRead env f))
    (authenticate env f))
    (enableToken env f))
    (autoRepair env f))
    (fun l => Next (zoneName f l)).

(** The locals a walk ends with. *)
Definition flowLocals (x : Flow) : Locals :=
  match x with
  | Next l => l
  | Return l _ => l
  end.

(** [s] was given and is not a boolean literal / is one. *)
Definition invalidBool (s : string) : bool :=
  negb (s =? "")
  && match snd (ParseBool s) with Some _ => true | None => false end.

Definition validBool (s : string) : bool :=
  negb (s =? "")
  && match snd (ParseBool s) with Some _ => false | None => true end.

Definition booleans (f : Flags) : list string :=
  [optFollowerRead f; optAuthenticate f; optEnableToken f; optAutoRepair f].

(** The first of the four, in the order the command handles them, whose
    text is given and is no boolean literal. *)
Definition firstInvalid (f : Flags) : option string :=
  find invalidBool (booleans f).

(** No option but, possibly, [-y]. *)
Definition noOverride (f : Flags) : Prop :=
  optCapacity f = 0 /\ optReplicas f = 0 /\ optFollowerRead f = ""
  /\ optAuthenticate f = "" /\ optEnableToken f = ""
  /\ optAutoRepair f = "" /\ optZoneName f = "".

Definition withReplicas (f : Flags) (n : Z) : Flags :=
  {| optCapacity := optCapacity f; optReplicas := n;
     optFollowerRead := optFollowerRead f;
     optAuthenticate := optAuthenticate f;
     optEnableToken := optEnableToken f;
     optAutoRepair := optAutoRepair f;
     optZoneName := optZoneName f; optYes := optYes f |}.

Definition call (v : proto.SimpleVolView) : RemoteCall :=
  UpdateVolume (proto.Name v) (proto.Capacity v) (proto.DpReplicaNum v)
    (proto.FollowerRead v) (proto.Authenticate v) (proto.EnableToken v)
    (proto.AutoRepair v) (calcAuthKey (proto.Owner v)) (proto.ZoneName v).

(** Lines 294-300. *)
Definition update (env : Env) (l : Locals) : Run :=
  let c := call (vv l) in
  Call c ;;
  match reply env c with
  | Some e => done (Some e)
  | None =>
      Stdout "Volume configuration has been set successfully.\n" [] ;;
      done None
  end.

(** Lines 276-300; [err] is nil when the walk reaches line 276. *)
Definition apply (env : Env) (f : Flags) (l : Locals) : Run :=
  if negb (isChange l) then
    Stdout "No changes has been set.\n" [] ;; done None
  else if negb (optYes f) then
    StdoutString (confirmString l) ;;
    Stdout "\nConfirm (yes/no)[yes]: " [] ;;
    Scanln (userConfirm env) ;;
    if negb (userConfirm env =? "yes")
       && negb (String.length (userConfirm env) =? 0)%nat
    then done (Some (Errorf "Abort by user.\n"))
    else update env l
  else update env l.

(** A run of the command together with the locals it leaves ([None] when
    it ends before line 208). *)
Record Result : Type := {
  run : Run;
  locals : option Locals
}.

End VolSet.

(** The [Run] function of [newVolSetCmd]. *)
Definition newVolSetCmd (env : Env) (f : VolSet.Flags) (volumeName : string)
    : VolSet.Result :=
  let '(vv, err) := getVolumeSimpleInfo env volumeName in
  let fetch := Call (GetVolumeSimpleInfo volumeName) in
  let deferred := deferErrout env "Error: %v" [] in
  match err, vv with
  | Some _, _ =>
      {| VolSet.run := deferred (fetch ;; done err); VolSet.locals := None |}
  | None, None =>                          (* [vv.Name] on nil *)
      {| VolSet.run := deferred (fetch ;; panic None); VolSet.locals := None |}
  | None, Some v =>
      match VolSet.diff env f v with
      | VolSet.Return l e =>
          {| VolSet.run := deferred (fetch ;; done (Some e));
             VolSet.locals := Some l |}
      | VolSet.Next l =>
          {| VolSet.run := deferred (fetch ;; VolSet.apply env f l);
             VolSet.locals := Some l |}
      end
  end.

(* ================================================================== *)
(** * The storage daemon (cmd/cmd.go) *)
(* ================================================================== *)

Module Supervisor.

Definition Version : string := "0.01".

Definition RoleMaster : string := "master".
Definition RoleMeta : string := "metanode".
Definition RoleData : string := "datanode".

Definition ModuleMaster : string := "master".
Definition ModuleMeta : string := "metaNode".
Definition ModuleData : string := "dataNode".

Inductive Level : Type := DebugLevel | InfoLevel | WarnLevel | ErrorLevel.

(** What the main goroutine does, in program order.  The two [Go...]
    events are the points where it starts another goroutine. *)
Inductive Event : Type :=
| FlagParse
| Getrlimit
| Setrlimit
| Println (what : string)
| LogInfo (what : string)
| LoadConfigFile (path : string)
| GOMAXPROCS
| NewServer (role : string)
| GoListenAndServe (port : string)
| InitLog (logDir module : string) (level : Level)
| SignalNotify                  (* [signal.Notify(sigC, SIGINT, SIGTERM)] *)
| GoAwaitSignal                 (* [go func() { <-sigC; ...; s.Shutdown() }()] *)
| Start                         (* [server.Start(cfg)] *)
| Sync                          (* [server.Sync()] *)
| LogFatal
| LogErrorf
| LogFlush.

Inductive Outcome : Type :=
| Exit (code : Z)
| Panic (r : string)
| Blocked.                      (* [Sync] never returns *)

Record Run : Type := { trace : list Event; outcome : Outcome }.

(** What [main] reads from outside itself: the command line, the answers
    of the three rlimit system calls, the configuration file, and the
    behaviour of the services it calls.  [log.LogFatal] belongs to a
    package outside cmd.go; it either returns ([logFatalExit = None]) or
    ends the process itself. *)
Record Env : Type := {
  configFile : string;
  configVersion : bool;
  getrlimit1 : option string;
  setrlimit : option string;
  getrlimit2 : option string;
  role : string;
  logDir : string;
  logLevel : string;
  profPort : string;
  initLog : option string;
  start : option string;
  syncReturns : bool;
  logFatalExit : option Z
}.

Definition emit (ev : Event) (k : Run) : Run :=
  {| trace := ev :: trace k; outcome := outcome k |}.

Definition exit (code : Z) : Run := {| trace := []; outcome := Exit code |}.

Definition raise (r : string) : Run := {| trace := []; outcome := Panic r |}.

Notation "ev ;;; k" := (emit ev k) (at level 61, right associativity).

(** [interceptSignal] (lines 72-81), as seen from the caller. *)
Definition interceptSignal (k : Run) : Run :=
  SignalNotify ;;;
  LogInfo "action[interceptSignal] register system signal." ;;;
  GoAwaitSignal ;;;
  k.

(** [modifyOpenFiles] (lines 83-102): its events and the error it
    returns. *)
Definition modifyOpenFiles (env : Env) : list Event * option string :=
  match getrlimit1 env with
  | Some e => ([Getrlimit], Some ("Error Getting Rlimit " ++ e))
  | None =>
      match setrlimit env with
      | Some e =>
          ([Getrlimit; Println "rLimit"; Setrlimit],
           Some ("Error Setting Rlimit " ++ e))
      | None =>
          match getrlimit2 env with
          | Some e =>
              ([Getrlimit; Println "rLimit"; Setrlimit; Getrlimit],
               Some ("Error Getting Rlimit " ++ e))
          | None =>
              ([Getrlimit; Println "rLimit"; Setrlimit; Getrlimit;
                Println "Rlimit Final"], None)
          end
      end
  end.

(** The switch on the role (lines 137-151): the logging module of a known
    role. *)
Definition moduleOf (role : string) : option string :=
  if role =? RoleMeta then Some ModuleMeta
  else if role =? RoleMaster then Some ModuleMaster
  else if role =? RoleData then Some ModuleData
  else None.

(** The switch on the log level (lines 157-168). *)
Definition levelOf (logLevel : string) : Level :=
  let l := Bytes.ToLower logLevel in
  if l =? "debug" then DebugLevel
  else if l =? "info" then InfoLevel
  else if l =? "warn" then WarnLevel
  else if l =? "error" then ErrorLevel
  else ErrorLevel.

(** Lines 182-194. *)
Definition serve (env : Env) : Run :=
  interceptSignal (
  Start ;;;
  match start env with
  | Some _ =>
      Println "Fatal: failed to start the baud storage daemon - " ;;;
      LogFatal ;;;
      match logFatalExit env with
      | Some code => exit code
      | None => LogFlush ;;; exit 1
      end
  | None =>
      Sync ;;;
      if syncReturns env then LogFlush ;;; exit 0
      else {| trace := []; outcome := Blocked |}
  end).

(** Lines 112-180, handing over to [serve]. *)
Definition boot (env : Env) : Run :=
  FlagParse ;;;
  let '(evs, err) := modifyOpenFiles env in
  let rest :=
    match err with
    | Some e => raise e
    | None =>
        if configVersion env then Println "Current Verson: " ;;; exit 0
        else
          LogInfo "Hello, Cfs Storage, Current Version: " ;;;
          LoadConfigFile (configFile env) ;;;
          GOMAXPROCS ;;;
          match moduleOf (role env) with
          | None => Println "Fatal: role mismatch: " ;;; exit 1
          | Some module =>
              NewServer (role env) ;;;
              let level := levelOf (logLevel env) in
              let logging :=
                InitLog (logDir env) module level ;;;
                match initLog env with
                | Some _ => Println "Fatal: failed to init log - " ;;; exit 1
                | None => serve env
                end in
              if negb (profPort env =? "")
              then GoListenAndServe (profPort env) ;;; logging
              else logging
          end
    end in
  {| trace := (evs ++ trace rest)%list; outcome := outcome rest |}.

(** [main]: [boot] under the deferred [recover] of lines 105-111. *)
Definition main (env : Env) : Run :=
  let r := boot env in
  match outcome r with
  | Panic v =>
      {| trace := (trace r ++ [LogErrorf; LogFlush])%list; outcome := Panic v |}
  | _ => r
  end.

End Supervisor.

(* ================================================================== *)
(** * Reading a trace *)
(* ================================================================== *)

(** The master client calls of a trace, in order. *)
Fixpoint remoteCalls (t : list Event) : list RemoteCall :=
  match t with
  | [] => []
  | Call c :: rest => c :: remoteCalls rest
  | _ :: rest => remoteCalls rest
  end.

(** The steps of the reconciliation workflow. *)
Inductive Step : Type :=
| Fetch          (* the snapshot is fetched *)
| ShowDiff       (* the summary of changes is shown *)
| Confirm        (* the operator is asked *)
| Lookup         (* the target user is looked up *)
| Apply.         (* the call that changes the cluster is issued *)

Definition stepOf (ev : Event) : option Step :=
  match ev with
  | Call (GetVolumeSimpleInfo _) => Some Fetch
  | Call (GetUserInfo _) => Some Lookup
  | Call _ => Some Apply
  | StdoutString _ => Some ShowDiff
  | Scanln _ => Some Confirm
  | Stdout _ _ | Errout _ _ => None
  end.

Fixpoint steps (t : list Event) : list Step :=
  match t with
  | [] => []
  | ev :: rest =>
      match stepOf ev with
      | Some s => s :: steps rest
      | None => steps rest
      end
  end.

(** No confirmation and no applying call before the first fetch. *)
Fixpoint fetchFirst (s : list Step) : bool :=
  match s with
  | [] => true
  | Fetch :: _ => true
  | Confirm :: _ | Apply :: _ => false
  | _ :: rest => fetchFirst rest
  end.

(** [l] is an initial segment of [protocol]. *)
Definition Prefix {A : Type} (l protocol : list A) : Prop :=
  exists rest, protocol = (l ++ rest)%list.

(** The authorization keys presented to the master. *)
Fixpoint authKeysOf (cs : list RemoteCall) : list string :=
  match cs with
  | [] => []
  | UpdateVolume _ _ _ _ _ _ _ authKey _ :: rest => authKey :: authKeysOf rest
  | DeleteVolume _ authKey :: rest => authKey :: authKeysOf rest
  | _ :: rest => authKeysOf rest
  end.

Definition authKeys (t : list Event) : list string :=
  authKeysOf (remoteCalls t).

(** The capacities and replica counts sent in update calls. *)
Fixpoint updatesOf (cs : list RemoteCall) : list (Z * Z) :=
  match cs with
  | [] => []
  | UpdateVolume _ capacity replicas _ _ _ _ _ _ :: rest =>
      (capacity, replicas) :: updatesOf rest
  | _ :: rest => updatesOf rest
  end.

Definition updates (t : list Event) : list (Z * Z) :=
  updatesOf (remoteCalls t).

(* ================================================================== *)
(** * A small cluster to run the commands on *)
(* ================================================================== *)

Module Sample.

Definition v1 : proto.SimpleVolView :=
  {| proto.Name := "v1"; proto.Owner := "u1"; proto.Capacity := 50;
     proto.DpReplicaNum := 3; proto.FollowerRead := true;
     proto.Authenticate := false; proto.EnableToken := false;
     proto.AutoRepair := false; proto.ZoneName := "default";
     proto.Status := 0 |}.

(** The same volume under another owner-independent state. *)
Definition v1' : proto.SimpleVolView :=
  {| proto.Name := "v1"; proto.Owner := "u1"; proto.Capacity := 7;
     proto.DpReplicaNum := 2; proto.FollowerRead := false;
     proto.Authenticate := true; proto.EnableToken := true;
     proto.AutoRepair := true; proto.ZoneName := "z2";
     proto.Status := 0 |}.

Definition abnormal : proto.SimpleVolView :=
  {| proto.Name := "v1"; proto.Owner := "u1"; proto.Capacity := 50;
     proto.DpReplicaNum := 3; proto.FollowerRead := true;
     proto.Authenticate := false; proto.EnableToken := false;
     proto.AutoRepair := false; proto.ZoneName := "default";
     proto.Status := 1 |}.

(** A master holding [v] that accepts every call, and an operator who
    answers [answer]. *)
Definition env (v : proto.SimpleVolView) (answer : string) : Env :=
  {| userConfirm := answer;
     getVolumeSimpleInfo := fun _ => (Some v, None);
     getUserInfo := fun id => (Some {| proto.UserID := id |}, None);
     reply := fun _ => None;
     erroutExit := Some 1;
     formatEnabledDisabled := fun b => if b then "Enabled" else "Disabled" |}.

Definition capacity80_maybe : VolSet.Flags :=
  {| VolSet.optCapacity := 80; VolSet.optReplicas := 0;
     VolSet.optFollowerRead := "maybe"; VolSet.optAuthenticate := "";
     VolSet.optEnableToken := ""; VolSet.optAutoRepair := "";
     VolSet.optZoneName := ""; VolSet.optYes := false |}.

Definition capacity80 : VolSet.Flags :=
  {| VolSet.optCapacity := 80; VolSet.optReplicas := 0;
     VolSet.optFollowerRead := ""; VolSet.optAuthenticate := "";
     VolSet.optEnableToken := ""; VolSet.optAutoRepair := "";
     VolSet.optZoneName := ""; VolSet.optYes := false |}.

Definition replicas256 : VolSet.Flags :=
  {| VolSet.optCapacity := 0; VolSet.optReplicas := 256;
     VolSet.optFollowerRead := ""; VolSet.optAuthenticate := "";
     VolSet.optEnableToken := ""; VolSet.optAutoRepair := "";
     VolSet.optZoneName := ""; VolSet.optYes := false |}.

(** A daemon configured as a metadata node whose [Start] answers
    [started]. *)
Definition daemon (started : option string) : Supervisor.Env :=
  {| Supervisor.configFile := "cfg.json";
     Supervisor.configVersion := false;
     Supervisor.getrlimit1 := None;
     Supervisor.setrlimit := None;
     Supervisor.getrlimit2 := None;
     Supervisor.role := "metanode";
     Supervisor.logDir := "/var/log";
     Supervisor.logLevel := "INFO";
     Supervisor.profPort := "";
     Supervisor.initLog := None;
     Supervisor.start := started;
     Supervisor.syncReturns := true;
     Supervisor.logFatalExit := None |}.

End Sample.

(* ================================================================== *)
(** * The vocabulary of the properties *)
(* ================================================================== *)

(** The order of the steps of each command, with and without [-y]. *)
Definition protocolSet (optYes : bool) : list Step :=
  if optYes then [Fetch; Apply] else [Fetch; ShowDiff; Confirm; Apply].

Definition protocolDelete (optYes : bool) : list Step :=
  if optYes then [Fetch; Apply] else [Confirm; Fetch; Apply].

Definition protocolTransfer (optYes : bool) : list Step :=
  if optYes then [Fetch; Lookup; Apply] else [Confirm; Fetch; Lookup; Apply].

(** The working copy [w] of a snapshot [v0] under the flags [f]: capacity
    and replica count are the snapshot's unless a positive value was
    given; a field without a valid override is the snapshot's. *)
Record Applied (f : VolSet.Flags) (v0 w : proto.SimpleVolView) : Prop := {
  same_Name : proto.Name w = proto.Name v0;
  same_Owner : proto.Owner w = proto.Owner v0;
  same_Status : proto.Status w = proto.Status v0;
  new_Capacity :
    proto.Capacity w
    = if (0 <? VolSet.optCapacity f)%Z then VolSet.optCapacity f
      else proto.Capacity v0;
  new_DpReplicaNum :
    proto.DpReplicaNum w
    = if (0 <? VolSet.optReplicas f)%Z then uint8 (VolSet.optReplicas f)
      else proto.DpReplicaNum v0;
  same_FollowerRead :
    VolSet.validBool (VolSet.optFollowerRead f) = false ->
    proto.FollowerRead w = proto.FollowerRead v0;
  same_Authenticate :
    VolSet.validBool (VolSet.optAuthenticate f) = false ->
    proto.Authenticate w = proto.Authenticate v0;
  same_EnableToken :
    VolSet.validBool (VolSet.optEnableToken f) = false ->
    proto.EnableToken w = proto.EnableToken v0;
  same_AutoRepair :
    VolSet.validBool (VolSet.optAutoRepair f) = false ->
    proto.AutoRepair w = proto.AutoRepair v0;
  same_ZoneName :
    VolSet.optZoneName f = "" -> proto.ZoneName w = proto.ZoneName v0
}.

(** The keys one invocation of [set] and one of [delete] present. *)
Definition keysSent (env : Env) (f : VolSet.Flags) (optYes : bool)
    (volumeName : string) : list string :=
  (authKeys (trace (VolSet.run (newVolSetCmd env f volumeName)))
   ++ authKeys (trace (newVolDeleteCmd env optYes volumeName)))%list.

(** [main] gets as far as line 182. *)
Definition reachesServe (env : Supervisor.Env) : Prop :=
  snd (Supervisor.modifyOpenFiles env) = None
  /\ Supervisor.configVersion env = false
  /\ Supervisor.moduleOf (Supervisor.role env) <> None
  /\ Supervisor.initLog env = None.

(** The events of [interceptSignal] followed by the call of [Start]. *)
Definition registerThenStart : list Supervisor.Event :=
  [Supervisor.SignalNotify;
   Supervisor.LogInfo "action[interceptSignal] register system signal.";
   Supervisor.GoAwaitSignal;
   Supervisor.Start].

(** What [main] does before line 182 when nothing stops it. *)
Definition preamble (env : Supervisor.Env) (module : string)
    : list Supervisor.Event :=
  ([Supervisor.FlagParse;
    Supervisor.Getrlimit; Supervisor.Println "rLimit"; Supervisor.Setrlimit;
    Supervisor.Getrlimit; Supervisor.Println "Rlimit Final";
    Supervisor.LogInfo "Hello, Cfs Storage, Current Version: ";
    Supervisor.LoadConfigFile (Supervisor.configFile env);
    Supervisor.GOMAXPROCS;
    Supervisor.NewServer (Supervisor.role env)]
   ++ (if negb (Supervisor.profPort env =? "")
       then [Supervisor.GoListenAndServe (Supervisor.profPort env)]
       else [])
   ++ [Supervisor.InitLog (Supervisor.logDir env) module
         (Supervisor.levelOf (Supervisor.logLevel env))])%list.

(* ================================================================== *)
(** * volume add-dp (vol.go:500-540) *)
(* ================================================================== *)

(** [strconv.ParseInt(s, 10, 64)], with the loop of [strconv.ParseUint]
    it rests on: the value so far is a [uint64] held in [Z]. *)
Module strconv.

Inductive ErrKind : Type := ErrSyntax | ErrRange.

(** [*strconv.NumError] *)
Record NumError : Type := {
  Func : string;
  Num : string;
  Err : ErrKind
}.

Definition maxUint64 : Z := 2 ^ 64 - 1.

(** The smallest number such that [cutoff * 10 > maxUint64]. *)
Definition cutoff : Z := maxUint64 / 10 + 1.

(** The value of a byte as a digit of base 10; every other byte is a
    syntax error. *)
Definition digit (c : ascii) : option Z :=
  let n := Z.of_N (N_of_ascii c) in
  if ((48 <=? n) && (n <=? 57))%Z then Some (n - 48) else None.

(** The loop over the bytes of [s], [n] being the value read so far. *)
Fixpoint digits (s : string) (n : Z) : Z * option ErrKind :=
  match s with
  | EmptyString => (n, None)
  | String c rest =>
      match digit c with
      | None => (0, Some ErrSyntax)
      | Some d =>
          if (n >=? cutoff)%Z then (maxUint64, Some ErrRange)
          else
            let n := n * 10 in
            let n1 := (n + d) mod 2 ^ 64 in
            if ((n1 <? n) || (n1 >? maxUint64))%Z
            then (maxUint64, Some ErrRange)
            else digits rest n1
      end
  end.

Definition ParseUint (s : string) : Z * option ErrKind :=
  if s =? "" then (0, Some ErrSyntax) else digits s 0.

Definition ParseInt (s : string) : Z * option NumError :=
  match s with
  | EmptyString =>
      (0, Some {| Func := "ParseInt"; Num := s; Err := ErrSyntax |})
  | String c rest =>
      let neg := (c =? "-")%char in
      let s' := if ((c =? "+") || (c =? "-"))%char then rest else s in
      let '(un, err) := ParseUint s' in
      match err with
      | Some ErrSyntax =>
          (0, Some {| Func := "ParseInt"; Num := s; Err := ErrSyntax |})
      | _ =>
          let cutoff := 2 ^ 63 in
          if negb neg && (un >=? cutoff)%Z then
            (cutoff - 1, Some {| Func := "ParseInt"; Num := s; Err := ErrRange |})
          else if neg && (un >? cutoff)%Z then
            (- cutoff, Some {| Func := "ParseInt"; Num := s; Err := ErrRange |})
          else (if neg then - un else un, None)
      end
  end.

End strconv.

Module VolAddDP.

(** The values [err] can hold in this command. *)
Inductive Failure : Type :=
| Parse (e : strconv.NumError)
| New (msg : string)                       (* [errors.New] *)
| Client (e : Error).                      (* from the master client *)

Inductive Action : Type :=
| CreateDataPartition (volName : string) (count : Z)
| Report (format : string) (e : Failure).  (* [errout(format, err)] *)

Record Run : Type := {
  trace : list Action;
  outcome : Outcome;
  err : option Failure
}.

(** The answer of the master and the behaviour of [errout]. *)
Record Env : Type := {
  createDataPartition : string -> Z -> option Error;
  erroutExit : option Z
}.

(** Lines 519-530, before the deferred report: the call made, if any, and
    the last value of [err]. *)
Definition body (env : Env) (volume number : string)
    : list Action * option Failure :=
  let '(count, err) := strconv.ParseInt number in
  match err with
  | Some e => ([], Some (Parse e))
  | None =>
      if (count <? 1)%Z then ([], Some (New "number must be larger than 0"))
      else
        ([CreateDataPartition volume count],
         option_map Client (createDataPartition env volume count))
  end.

End VolAddDP.

(** The [Run] function of [newVolAddDPCmd]: the body under the deferred
    report of lines 514-518. *)
Definition newVolAddDPCmd (env : VolAddDP.Env) (volume number : string)
    : VolAddDP.Run :=
  let '(calls, err) := VolAddDP.body env volume number in
  match err with
  | None =>
      {| VolAddDP.trace := calls; VolAddDP.outcome := Returned;
         VolAddDP.err := None |}
  | Some e =>
      {| VolAddDP.trace :=
           (calls ++ [VolAddDP.Report "Create data partition failed: %v\n" e])%list;
         VolAddDP.outcome :=
           match VolAddDP.erroutExit env with
           | Some code => Exited code
           | None => Returned
           end;
         VolAddDP.err := Some e |}
  end.

(* ================================================================== *)
(** * volume list (vol.go:57-101) *)
(* ================================================================== *)

Module VolList.

Inductive Action : Type :=
| Seen (ev : Event)
| ListVols (keyword : string).

Record Run : Type := {
  trace : list Action;
  outcome : Outcome;
  err : option Error
}.

(** What the command reads from outside itself.  [VolInfo] is
    [proto.VolInfo], of which vol.go reads [Name]; [fetch i] is the answer
    to the [i]-th [GetVolumeSimpleInfo] of the run; the two headers and the
    two row formatters are defined elsewhere in the package. *)
Record Env (VolInfo : Type) : Type := {
  listVols : string -> list (option VolInfo) * option Error;
  Name : VolInfo -> string;
  fetch : nat -> string -> option proto.SimpleVolView * option Error;
  erroutExit : option Z;
  volumeInfoTableHeader : string;
  volumeDetailInfoTableHeader : string;
  formatVolInfoTableRow : VolInfo -> string;
  formatVolDetailInfoTableRow :
    option proto.SimpleVolView -> VolInfo -> string
}.

Arguments listVols {VolInfo}.
Arguments Name {VolInfo}.
Arguments fetch {VolInfo}.
Arguments erroutExit {VolInfo}.
Arguments volumeInfoTableHeader {VolInfo}.
Arguments volumeDetailInfoTableHeader {VolInfo}.
Arguments formatVolInfoTableRow {VolInfo}.
Arguments formatVolDetailInfoTableRow {VolInfo}.

Definition done (e : option Error) : Run :=
  {| trace := []; outcome := Returned; err := e |}.

Definition emit (a : Action) (k : Run) : Run :=
  {| trace := a :: trace k; outcome := outcome k; err := err k |}.

Notation "a ;;> k" := (emit a k) (at level 61, right associativity).

(** The row of one volume (lines 89-93). *)
Definition row {VolInfo : Type} (env : Env VolInfo) (optDetailMod : bool)
    (vv : option proto.SimpleVolView) (vol : VolInfo) : Action :=
  Seen (Stdout "%v\n"
          [AStr (if optDetailMod then formatVolDetailInfoTableRow env vv vol
                 else formatVolInfoTableRow env vol)]).

(** The loop of lines 84-94 from its [i]-th round on. *)
Fixpoint rows {VolInfo : Type} (env : Env VolInfo) (optDetailMod : bool)
    (i : nat) (vols : list (option VolInfo)) : Run :=
  match vols with
  | [] => done None
  | None :: _ =>                           (* [vol.Name] on nil *)
      {| trace := []; outcome := Panicked; err := None |}
  | Some vol :: rest =>
      let '(vv, err) := fetch env i (Name env vol) in
      Seen (Call (GetVolumeSimpleInfo (Name env vol))) ;;>
      match err with
      | Some _ => done err
      | None => row env optDetailMod vv vol ;;> rows env optDetailMod (S i) rest
      end
  end.

(** Lines 76-94. *)
Definition list {VolInfo : Type} (env : Env VolInfo)
    (optKeyword : string) (optDetailMod : bool) : Run :=
  let '(vols, err) := listVols env optKeyword in
  ListVols optKeyword ;;>
  match err with
  | Some _ => done err
  | None =>
      Seen (Stdout "%v\n"
              [AStr (if optDetailMod then volumeDetailInfoTableHeader env
                     else volumeInfoTableHeader env)]) ;;>
      rows env optDetailMod 0 vols
  end.

(** The deferred report of lines 71-75. *)
Definition deferred {VolInfo : Type} (env : Env VolInfo) (r : Run) : Run :=
  match err r with
  | None => r
  | Some e =>
      {| trace := (trace r ++ [Seen (Errout "List cluster volume failed:\n%v\n"
                                       [AErr e])])%list;
         outcome := match erroutExit env with
                    | Some code => Exited code
                    | None => outcome r
                    end;
         err := Some e |}
  end.

End VolList.

(** The [Run] function of [newVolListCmd]. *)
Definition newVolListCmd {VolInfo : Type} (env : VolList.Env VolInfo)
    (optKeyword : string) (optDetailMod : bool) : VolList.Run :=
  VolList.deferred env (VolList.list env optKeyword optDetailMod).

(* ================================================================== *)
(** * volume info (vol.go:173-176, 320-386) *)
(* ================================================================== *)

(** [sort.SliceStable(x, less)]: the one arrangement of [x] that is
    ordered by [less] and keeps elements that [less] does not separate in
    their original order, computed here by insertion. *)
Module sort.

Fixpoint insert {A : Type} (less : A -> A -> bool) (x : A) (l : list A)
    : list A :=
  match l with
  | [] => [x]
  | y :: rest => if less y x then y :: insert less x rest else x :: y :: rest
  end.

Fixpoint SliceStable {A : Type} (less : A -> A -> bool) (x : list A)
    : list A :=
  match x with
  | [] => []
  | a :: rest => insert less a (SliceStable less rest)
  end.

End sort.

Module VolInfo.

Inductive Action : Type :=
| Seen (ev : Event)
| GetMetaPartitions (volName : string)
| GetDataPartitions (volName : string).

Record Run : Type := {
  trace : list Action;
  outcome : Outcome
}.

(** What the command reads from outside itself.  [MP] is
    [proto.MetaPartitionView] and [DP] the element type of
    [DataPartitionsView.DataPartitions]; vol.go reads their [PartitionID].
    The pointers held in the two slices are taken to be non-nil.  The
    headers and formatters are defined elsewhere in the package. *)
Record Env (MP DP : Type) : Type := {
  getVolumeSimpleInfo : string -> option proto.SimpleVolView * option Error;
  getMetaPartitions : string -> list MP * option Error;
  getDataPartitions : string -> option (list DP) * option Error;
  metaPartitionID : MP -> Z;
  dataPartitionID : DP -> Z;
  erroutExit : option Z;
  formatSimpleVolView : option proto.SimpleVolView -> string;
  metaPartitionTableHeader : string;
  dataPartitionTableHeader : string;
  formatMetaPartitionTableRow : MP -> string;
  formatDataPartitionTableRow : DP -> string
}.

Arguments getVolumeSimpleInfo {MP DP}.
Arguments getMetaPartitions {MP DP}.
Arguments getDataPartitions {MP DP}.
Arguments metaPartitionID {MP DP}.
Arguments dataPartitionID {MP DP}.
Arguments erroutExit {MP DP}.
Arguments formatSimpleVolView {MP DP}.
Arguments metaPartitionTableHeader {MP DP}.
Arguments dataPartitionTableHeader {MP DP}.
Arguments formatMetaPartitionTableRow {MP DP}.
Arguments formatDataPartitionTableRow {MP DP}.

Definition done : Run := {| trace := []; outcome := Returned |}.

Definition exit (code : Z) : Run := {| trace := []; outcome := Exited code |}.

Definition emit (a : Action) (k : Run) : Run :=
  {| trace := a :: trace k; outcome := outcome k |}.

(** The actions [acts], then [k]. *)
Definition emits (acts : list Action) (k : Run) : Run :=
  {| trace := (acts ++ trace k)%list; outcome := outcome k |}.

Notation "a ;;> k" := (emit a k) (at level 61, right associativity).

(** [errout(format, err)] followed by [k]. *)
Definition errout {MP DP : Type} (env : Env MP DP) (format : string)
    (e : Error) (k : Run) : Run :=
  Seen (Errout format [AErr e]) ;;>
  match erroutExit env with
  | Some code => exit code
  | None => k
  end.

Definition metaRows {MP DP : Type} (env : Env MP DP) (views : list MP)
    : list Action :=
  map (fun view => Seen (Stdout "%v\n" [AStr (formatMetaPartitionTableRow env view)]))
      (sort.SliceStable
         (fun a b => (metaPartitionID env a <? metaPartitionID env b)%Z) views).

Definition dataRows {MP DP : Type} (env : Env MP DP) (dps : list DP)
    : list Action :=
  map (fun dp => Seen (Stdout "%v\n" [AStr (formatDataPartitionTableRow env dp)]))
      (sort.SliceStable
         (fun a b => (dataPartitionID env a <? dataPartitionID env b)%Z) dps).

(** Lines 358-374. *)
Definition dataDetail {MP DP : Type} (env : Env MP DP)
    (optDataDetail : bool) (volumeName : string) : Run :=
  if optDataDetail then
    let '(view, err) := getDataPartitions env volumeName in
    GetDataPartitions volumeName ;;>
    let shown :=
      Seen (Stdout "Data partitions:\n" []) ;;>
      Seen (Stdout "%v\n" [AStr (dataPartitionTableHeader env)]) ;;>
      match view with
      | None =>                            (* [view.DataPartitions] on nil *)
          {| trace := []; outcome := Panicked |}
      | Some dps => emits (dataRows env dps) done
      end in
    match err with
    | Some e =>
        errout env "Get volume data detail information failed:\n%v\n" e (exit 1)
    | None => shown
    end
  else done.

(** Lines 341-356, handing over to [k]. *)
Definition metaDetail {MP DP : Type} (env : Env MP DP)
    (optMetaDetail : bool) (volumeName : string) (k : Run) : Run :=
  if optMetaDetail then
    let '(views, err) := getMetaPartitions env volumeName in
    GetMetaPartitions volumeName ;;>
    match err with
    | Some e =>
        errout env "Get volume metadata detail information failed:\n%v\n" e
          (exit 1)
    | None =>
        Seen (Stdout "Meta partitions:\n" []) ;;>
        Seen (Stdout "%v\n" [AStr (metaPartitionTableHeader env)]) ;;>
        emits (metaRows env views) k
    end
  else k.

End VolInfo.

(** The [Run] function of [newVolInfoCmd]. *)
Definition newVolInfoCmd {MP DP : Type} (env : VolInfo.Env MP DP)
    (optMetaDetail optDataDetail : bool) (volumeName : string)
    : VolInfo.Run :=
  let '(svv, err) := VolInfo.getVolumeSimpleInfo env volumeName in
  let rest :=
    VolInfo.emit
      (VolInfo.Seen (Stdout "Summary:\n%s\n"
                       [AStr (VolInfo.formatSimpleVolView env svv)]))
      (VolInfo.metaDetail env optMetaDetail volumeName
         (VolInfo.dataDetail env optDataDetail volumeName)) in
  VolInfo.emit (VolInfo.Seen (Call (GetVolumeSimpleInfo volumeName)))
    match err with
    | Some e => VolInfo.errout env "Get volume info failed:\n%v\n" e rest
    | None => rest
    end.

(* ================================================================== *)
(** * More vocabulary and samples *)
(* ================================================================== *)

(** The decimal numeral of [n], for [0 <= n < 10 ^ 20]. *)
Module Numeral.

Definition digitChar (d : Z) : ascii := ascii_of_N (Z.to_N (48 + d)).

Fixpoint decimal_aux (fuel : nat) (n : Z) (tail : string) : string :=
  match fuel with
  | O => tail
  | S fuel' =>
      let tail' := String (digitChar (n mod 10)) tail in
      if (n <? 10)%Z then tail' else decimal_aux fuel' (n / 10) tail'
  end.

Definition decimal (n : Z) : string := decimal_aux 20 n "".

End Numeral.

(** The partition counts requested from the master. *)
Fixpoint requested (t : list VolAddDP.Action) : list (string * Z) :=
  match t with
  | [] => []
  | VolAddDP.CreateDataPartition volName count :: rest =>
      (volName, count) :: requested rest
  | _ :: rest => requested rest
  end.

(** The characters [hex.EncodeToString] writes. *)
Definition lowerHex (c : ascii) : bool :=
  let n := N_of_ascii c in
  ((48 <=? n) && (n <=? 57) || (97 <=? n) && (n <=? 102))%N.

Fixpoint allLowerHex (s : string) : bool :=
  match s with
  | EmptyString => true
  | String c rest => lowerHex c && allLowerHex rest
  end.

(** The volumes whose snapshot a run of [volume list] asks for. *)
Fixpoint fetchedNames (t : list VolList.Action) : list string :=
  match t with
  | [] => []
  | VolList.Seen (Call (GetVolumeSimpleInfo volName)) :: rest =>
      volName :: fetchedNames rest
  | _ :: rest => fetchedNames rest
  end.

(** What one round of the loop of [volume list] leaves in the trace. *)
Definition listed {VolInfo : Type} (env : VolList.Env VolInfo)
    (optDetailMod : bool) (i : nat) (vol : VolInfo) : list VolList.Action :=
  [VolList.Seen (Call (GetVolumeSimpleInfo (VolList.Name env vol)));
   VolList.row env optDetailMod
     (fst (VolList.fetch env i (VolList.Name env vol))) vol].

Fixpoint listedFrom {VolInfo : Type} (env : VolList.Env VolInfo)
    (optDetailMod : bool) (i : nat) (vols : list VolInfo)
    : list VolList.Action :=
  match vols with
  | [] => []
  | vol :: rest =>
      (listed env optDetailMod i vol
       ++ listedFrom env optDetailMod (S i) rest)%list
  end.

(** Every fetch of the rounds [i], [i+1], ... over [vols] succeeds. *)
Fixpoint fetchesOk {VolInfo : Type} (env : VolList.Env VolInfo) (i : nat)
    (vols : list VolInfo) : Prop :=
  match vols with
  | [] => True
  | vol :: rest =>
      snd (VolList.fetch env i (VolList.Name env vol)) = None
      /\ fetchesOk env (S i) rest
  end.

(** The calls to the master in a run of [volume info]. *)
Fixpoint infoCalls (t : list VolInfo.Action) : list VolInfo.Action :=
  match t with
  | [] => []
  | VolInfo.Seen (Call c) :: rest => VolInfo.Seen (Call c) :: infoCalls rest
  | VolInfo.Seen _ :: rest => infoCalls rest
  | a :: rest => a :: infoCalls rest
  end.

(** The events of the daemon that need a constructed server. *)
Definition usesServer (ev : Supervisor.Event) : bool :=
  match ev with
  | Supervisor.NewServer _ | Supervisor.SignalNotify | Supervisor.GoAwaitSignal
  | Supervisor.Start | Supervisor.Sync => true
  | _ => false
  end.

(** The events of the daemon that come with or after the reading of the
    configuration file. *)
Definition needsConfig (ev : Supervisor.Event) : bool :=
  match ev with
  | Supervisor.LoadConfigFile _ | Supervisor.GOMAXPROCS
  | Supervisor.GoListenAndServe _ | Supervisor.InitLog _ _ _
  | Supervisor.LogFatal => true
  | _ => usesServer ev
  end.

(** Every byte of [s] is a decimal digit. *)
Fixpoint allDigits (s : string) : bool :=
  match s with
  | EmptyString => true
  | String c rest =>
      match strconv.digit c with
      | Some _ => allDigits rest
      | None => false
      end
  end.

(** An optional sign followed by one decimal digit or more. *)
Definition signedNumeral (s : string) : bool :=
  match s with
  | EmptyString => false
  | String c rest =>
      if ((c =? "+") || (c =? "-"))%char
      then negb (rest =? "") && allDigits rest
      else allDigits s
  end.

(** The row of one partition in the output of [volume info]. *)
Definition metaRow {MP DP : Type} (env : VolInfo.Env MP DP) (view : MP)
    : VolInfo.Action :=
  VolInfo.Seen (Stdout "%v\n" [AStr (VolInfo.formatMetaPartitionTableRow env view)]).

Definition dataRow {MP DP : Type} (env : VolInfo.Env MP DP) (dp : DP)
    : VolInfo.Action :=
  VolInfo.Seen (Stdout "%v\n" [AStr (VolInfo.formatDataPartitionTableRow env dp)]).

(** [sorted] is [original] put in ascending order of [key], elements of
    equal key keeping their order. *)
Definition StablySorted {A : Type} (key : A -> Z) (original sorted : list A)
    : Prop :=
  Permutation sorted original
  /\ Sorted (fun a b => key a <= key b) sorted
  /\ forall k, filter (fun a => (key a =? k)%Z) sorted
               = filter (fun a => (key a =? k)%Z) original.

(** Some option of [volume set] other than [-y] holds a value. *)
Definition anyOverride (f : VolSet.Flags) : bool :=
  (0 <? VolSet.optCapacity f)%Z || (0 <? VolSet.optReplicas f)%Z
  || negb (VolSet.optFollowerRead f =? "")
  || negb (VolSet.optAuthenticate f =? "")
  || negb (VolSet.optEnableToken f =? "")
  || negb (VolSet.optAutoRepair f =? "")
  || negb ("" =? VolSet.optZoneName f).

(** The value a boolean option gives to a field that holds [old]. *)
Definition overrideBool (opt : string) (old : bool) : bool :=
  if opt =? "" then old else fst (ParseBool opt).

(** The update [volume set] sends for the snapshot [v] under the flags
    [f]: every field is the snapshot's unless the flag of the field holds
    a value. *)
Definition expectedUpdate (f : VolSet.Flags) (v : proto.SimpleVolView)
    : RemoteCall :=
  UpdateVolume (proto.Name v)
    (if (0 <? VolSet.optCapacity f)%Z then VolSet.optCapacity f
     else proto.Capacity v)
    (if (0 <? VolSet.optReplicas f)%Z then uint8 (VolSet.optReplicas f)
     else proto.DpReplicaNum v)
    (overrideBool (VolSet.optFollowerRead f) (proto.FollowerRead v))
    (overrideBool (VolSet.optAuthenticate f) (proto.Authenticate v))
    (overrideBool (VolSet.optEnableToken f) (proto.EnableToken v))
    (overrideBool (VolSet.optAutoRepair f) (proto.AutoRepair v))
    (calcAuthKey (proto.Owner v))
    (if "" =? VolSet.optZoneName f then proto.ZoneName v
     else VolSet.optZoneName f).

Module Sample2.

Definition master : VolAddDP.Env :=
  {| VolAddDP.createDataPartition := fun _ _ => None;
     VolAddDP.erroutExit := Some 1 |}.

(** A master listing two volumes whose second snapshot cannot be
    fetched when [broken]. *)
Definition lister (broken : bool) : VolList.Env (string * Z) :=
  {| VolList.listVols :=
       fun _ => ([Some ("v1", 10); Some ("v2", 20); Some ("v3", 30)], None);
     VolList.Name := fst;
     VolList.fetch :=
       fun i _ => if broken && (i =? 1)%nat
                  then (None, Some (RemoteError "timeout"))
                  else (Some Sample.v1, None);
     VolList.erroutExit := None;
     VolList.volumeInfoTableHeader := "VOLUME";
     VolList.volumeDetailInfoTableHeader := "VOLUME DETAIL";
     VolList.formatVolInfoTableRow := fst;
     VolList.formatVolDetailInfoTableRow := fun _ vol => fst vol |}.

(** A master whose volume has four meta partitions and three data
    partitions, each an identifier with a host. *)
Definition inspector (metaFails : bool) : VolInfo.Env (Z * string) (Z * string) :=
  {| VolInfo.getVolumeSimpleInfo := fun _ => (Some Sample.v1, None);
     VolInfo.getMetaPartitions :=
       fun _ => if metaFails then ([], Some (RemoteError "timeout"))
                else ([(3, "a"); (1, "b"); (3, "c"); (2, "d")], None);
     VolInfo.getDataPartitions :=
       fun _ => (Some [(9, "x"); (7, "y"); (8, "z")], None);
     VolInfo.metaPartitionID := fst;
     VolInfo.dataPartitionID := fst;
     VolInfo.erroutExit := None;
     VolInfo.formatSimpleVolView := fun _ => "summary";
     VolInfo.metaPartitionTableHeader := "META";
     VolInfo.dataPartitionTableHeader := "DATA";
     VolInfo.formatMetaPartitionTableRow := snd;
     VolInfo.formatDataPartitionTableRow := snd |}.

Definition capacity80_yes : VolSet.Flags :=
  {| VolSet.optCapacity := 80; VolSet.optReplicas := 0;
     VolSet.optFollowerRead := ""; VolSet.optAuthenticate := "";
     VolSet.optEnableToken := ""; VolSet.optAutoRepair := "";
     VolSet.optZoneName := ""; VolSet.optYes := true |}.

Definition replicasMinus5 : VolSet.Flags :=
  {| VolSet.optCapacity := 0; VolSet.optReplicas := -5;
     VolSet.optFollowerRead := ""; VolSet.optAuthenticate := "";
     VolSet.optEnableToken := ""; VolSet.optAutoRepair := "";
     VolSet.optZoneName := ""; VolSet.optYes := false |}.

(** A daemon with the given role whose first rlimit call answers
    [rlimit] and whose log initialisation answers [logged]. *)
Definition daemon (wanted : string) (version : bool)
    (rlimit logged : option string) : Supervisor.Env :=
  {| Supervisor.configFile := "cfg.json";
     Supervisor.configVersion := version;
     Supervisor.getrlimit1 := rlimit;
     Supervisor.setrlimit := None;
     Supervisor.getrlimit2 := None;
     Supervisor.role := wanted;
     Supervisor.logDir := "/var/log";
     Supervisor.logLevel := "Debug";
     Supervisor.profPort := "";
     Supervisor.initLog := logged;
     Supervisor.start := None;
     Supervisor.syncReturns := true;
     Supervisor.logFatalExit := None |}.

(** A master that rejects every call that changes something, behind an
    [errout] that returns. *)
Definition rejecting : Env :=
  {| userConfirm := "";
     getVolumeSimpleInfo := fun _ => (Some Sample.v1, None);
     getUserInfo := fun id => (Some {| proto.UserID := id |}, None);
     reply := fun _ => Some (RemoteError "duplicate vol name");
     erroutExit := None;
     formatEnabledDisabled := fun b => if b then "Enabled" else "Disabled" |}.

Definition createYes : VolCreate.Flags :=
  {| VolCreate.optMPCount := 3; VolCreate.optDPSize := 120;
     VolCreate.optCapacity := 10; VolCreate.optReplicas := 3;
     VolCreate.optFollowerRead := true; VolCreate.optAutoRepair := false;
     VolCreate.optYes := true; VolCreate.optZoneName := "default" |}.

End Sample2.

(* ================================================================== *)
(** * Properties *)
(* ================================================================== *)

(** ** The authorization key on known digests *)

Example calcAuthKey_empty : calcAuthKey "" = "d41d8cd98f00b204e9800998ecf8427e".
Proof. vm_compute. reflexivity. Qed.

Example calcAuthKey_abc : calcAuthKey "abc" = "900150983cd24fb0d6963f7d28e17f72".
Proof. vm_compute. reflexivity. Qed.

Example calcAuthKey_u1 : calcAuthKey "u1" = "e4774cdda0793f86414e8b9140bb6db4".
Proof. vm_compute. reflexivity. Qed.

Example calcAuthKey_two_blocks :
  calcAuthKey "xxxxxxxxxxxxxxxxxxxxxxxxxxxxxxxxxxxxxxxxxxxxxxxxxxxxxxxx"
  = "668a72d5ba17f08e62dabcafad6db14b".
Proof. vm_compute. reflexivity. Qed.

(** ** Traces and the deferred report *)

Lemma steps_app (a b : list Event) :
  steps (a ++ b) = (steps a ++ steps b)%list.
Proof.
  induction a as [|ev a IH]; simpl; [reflexivity|].
  destruct (stepOf ev); simpl; now rewrite IH.
Qed.

Lemma remoteCalls_app (a b : list Event) :
  remoteCalls (a ++ b) = (remoteCalls a ++ remoteCalls b)%list.
Proof.
  induction a as [|ev a IH]; simpl; [reflexivity|].
  destruct ev; simpl; now rewrite IH.
Qed.

(** The deferred report adds at most one line on the error stream, after
    everything else. *)
Lemma deferErrout_trace env format a r :
  trace (deferErrout env format a r) = trace r
  \/ exists e, err r = Some e
       /\ trace (deferErrout env format a r)
          = (trace r ++ [Errout format (a ++ [AErr e])])%list.
Proof.
  unfold deferErrout.
  destruct (outcome r), (err r) as [e|]; simpl; auto; right; eauto.
Qed.

Lemma deferErrout_steps env format a r :
  steps (trace (deferErrout env format a r)) = steps (trace r).
Proof.
  destruct (deferErrout_trace env format a r) as [->|(e & _ & ->)]; auto.
  rewrite steps_app; simpl. apply app_nil_r.
Qed.

Lemma deferErrout_remoteCalls env format a r :
  remoteCalls (trace (deferErrout env format a r)) = remoteCalls (trace r).
Proof.
  destruct (deferErrout_trace env format a r) as [->|(e & _ & ->)]; auto.
  rewrite remoteCalls_app; simpl. apply app_nil_r.
Qed.

Lemma deferErrout_authKeys env format a r :
  authKeys (trace (deferErrout env format a r)) = authKeys (trace r).
Proof. unfold authKeys. now rewrite deferErrout_remoteCalls. Qed.

Lemma deferErrout_updates env format a r :
  updates (trace (deferErrout env format a r)) = updates (trace r).
Proof. unfold updates. now rewrite deferErrout_remoteCalls. Qed.

Lemma deferErrout_err env format a r :
  err (deferErrout env format a r) = err r.
Proof.
  unfold deferErrout.
  destruct (outcome r); destruct (err r) eqn:E; simpl; congruence.
Qed.

(** The run of [volume set] once the snapshot [v] is there. *)
Lemma newVolSetCmd_fetched env f volumeName v :
  getVolumeSimpleInfo env volumeName = (Some v, None) ->
  newVolSetCmd env f volumeName
  = match VolSet.diff env f v with
    | VolSet.Return l e =>
        {| VolSet.run :=
             deferErrout env "Error: %v" []
               (Call (GetVolumeSimpleInfo volumeName) ;; done (Some e));
           VolSet.locals := Some l |}
    | VolSet.Next l =>
        {| VolSet.run :=
             deferErrout env "Error: %v" []
               (Call (GetVolumeSimpleInfo volumeName) ;; VolSet.apply env f l);
           VolSet.locals := Some l |}
    end.
Proof. unfold newVolSetCmd. intros ->. reflexivity. Qed.

(** ** The order of the steps (C1) *)

Ltac prefix_now :=
  simpl; unfold Prefix; eexists; reflexivity.

Lemma set_steps env f volumeName :
  Prefix (steps (trace (VolSet.run (newVolSetCmd env f volumeName))))
         (protocolSet (VolSet.optYes f)).
Proof.
  unfold newVolSetCmd, protocolSet.
  destruct (getVolumeSimpleInfo env volumeName) as [[v|] [e|]];
    try destruct (VolSet.diff env f v) as [l|l e0];
    cbn [VolSet.run]; rewrite deferErrout_steps;
    try (destruct (VolSet.optYes f); prefix_now).
  unfold VolSet.apply, VolSet.update.
  destruct (VolSet.isChange l), (VolSet.optYes f); simpl;
    try destruct (negb (userConfirm env =? "yes")
                  && negb (String.length (userConfirm env) =? 0)%nat);
    simpl; try destruct (reply env _); prefix_now.
Qed.

Lemma delete_steps env optYes volumeName :
  Prefix (steps (trace (newVolDeleteCmd env optYes volumeName)))
         (protocolDelete optYes).
Proof.
  unfold newVolDeleteCmd, VolDelete.delete, errout, protocolDelete.
  destruct optYes; simpl;
    try destruct (userConfirm env =? "yes"); simpl;
    destruct (getVolumeSimpleInfo env volumeName) as [[v|] [e|]]; simpl;
    destruct (erroutExit env); simpl;
    try destruct (reply env _); simpl; prefix_now.
Qed.

Lemma transfer_steps env optYes optForce volume userID :
  Prefix (steps (trace (newVolTransferCmd env optYes optForce volume userID)))
         (protocolTransfer optYes).
Proof.
  unfold newVolTransferCmd. rewrite deferErrout_steps.
  unfold VolTransfer.transfer, protocolTransfer.
  destruct optYes; simpl;
    try destruct (userConfirm env =? "yes"); simpl;
    destruct (getVolumeSimpleInfo env volume) as [[v|] [e|]]; simpl;
    try destruct (proto.Status v =? 0)%Z; simpl;
    try destruct (getUserInfo env userID) as [[u|] [e'|]]; simpl;
    prefix_now.
Qed.

(** C1, as the code has it.  Whatever the operator and the master answer,
    the steps of one invocation form an initial segment of the protocol of
    its command: for [set], fetch the snapshot, show the diff, ask, update;
    for [delete], ask, fetch, delete; for [transfer], ask, fetch, look the
    user up, transfer (with [-y] nothing is shown or asked).  So the
    applying call never comes before the fetch, nor before the question
    when one is asked; but [delete] and [transfer] ask before they
    fetch. *)
Theorem commands_follow_their_protocol (env : Env) :
  (forall f volumeName,
     Prefix (steps (trace (VolSet.run (newVolSetCmd env f volumeName))))
            (protocolSet (VolSet.optYes f)))
  /\ (forall optYes volumeName,
        Prefix (steps (trace (newVolDeleteCmd env optYes volumeName)))
               (protocolDelete optYes))
  /\ (forall optYes optForce volume userID,
        Prefix (steps (trace (newVolTransferCmd env optYes optForce volume userID)))
               (protocolTransfer optYes)).
Proof.
  split; [|split]; intros.
  - apply set_steps.
  - apply delete_steps.
  - apply transfer_steps.
Qed.

(** C1 as stated fails: an operator who answers yes to [delete] is asked
    before the snapshot is fetched. *)
Lemma delete_confirms_before_fetch :
  steps (trace (newVolDeleteCmd (Sample.env Sample.v1 "yes") false "v1"))
  = [Confirm; Fetch; Apply]
  /\ fetchFirst
       (steps (trace (newVolDeleteCmd (Sample.env Sample.v1 "yes") false "v1")))
     = false.
Proof. split; vm_compute; reflexivity. Qed.

(** ** What the walk over the fields does to the working copy *)

Lemma ParseBool_error s b e :
  ParseBool s = (b, Some e) -> e = NumError "ParseBool" s.
Proof.
  unfold ParseBool.
  repeat match goal with
         | |- context [if ?c then _ else _] => destruct c
         end; congruence.
Qed.

Lemma andThen_ind (P : VolSet.Flow -> Prop) x step :
  P x -> (forall l, P (VolSet.Next l) -> P (step l)) ->
  P (VolSet.andThen x step).
Proof. destruct x; simpl; auto. Qed.

Lemma Applied_start f v :
  Applied f v (VolSet.vv (VolSet.replicas f (VolSet.capacity f (VolSet.start v)))).
Proof.
  unfold VolSet.replicas, VolSet.capacity, VolSet.start.
  destruct (0 <? VolSet.optCapacity f)%Z eqn:C;
    destruct (0 <? VolSet.optReplicas f)%Z eqn:R; simpl;
    constructor; simpl; rewrite ?C, ?R; auto.
Qed.

Ltac boolean_step :=
  let E := fresh "E" in
  let PB := fresh "PB" in
  let H := fresh "H" in
  let V := fresh "V" in
  intros H; unfold VolSet.boolean;
  match goal with
  | |- context [negb (?s =? "")] =>
      destruct (s =? "") eqn:E;
      destruct (ParseBool s) as [? [?|]] eqn:PB
  end; simpl; destruct H; constructor; simpl; auto;
  intros V; unfold VolSet.validBool in V; rewrite E, PB in V; discriminate.

Lemma Applied_followerRead env f v l :
  Applied f v (VolSet.vv l) ->
  Applied f v (VolSet.vv (VolSet.flowLocals (VolSet.followerRead env f l))).
Proof. unfold VolSet.followerRead. boolean_step. Qed.

Lemma Applied_authenticate env f v l :
  Applied f v (VolSet.vv l) ->
  Applied f v (VolSet.vv (VolSet.flowLocals (VolSet.authenticate env f l))).
Proof. unfold VolSet.authenticate. boolean_step. Qed.

Lemma Applied_enableToken env f v l :
  Applied f v (VolSet.vv l) ->
  Applied f v (VolSet.vv (VolSet.flowLocals (VolSet.enableToken env f l))).
Proof. unfold VolSet.enableToken. boolean_step. Qed.

Lemma Applied_autoRepair env f v l :
  Applied f v (VolSet.vv l) ->
  Applied f v (VolSet.vv (VolSet.flowLocals (VolSet.autoRepair env f l))).
Proof. unfold VolSet.autoRepair. boolean_step. Qed.

Lemma Applied_zoneName f v l :
  Applied f v (VolSet.vv l) ->
  Applied f v (VolSet.vv (VolSet.zoneName f l)).
Proof.
  intros H. unfold VolSet.zoneName.
  destruct ("" =? VolSet.optZoneName f) eqn:E; simpl;
    destruct H; constructor; simpl; auto.
  intros Z. rewrite Z in E. discriminate.
Qed.

(** Whatever the flags, and whether the walk ends or returns early, the
    working copy differs from the snapshot only in fields that were given
    a value. *)
Lemma diff_Applied env f v :
  Applied f v (VolSet.vv (VolSet.flowLocals (VolSet.diff env f v))).
Proof.
  unfold VolSet.diff.
  repeat (apply (andThen_ind
            (fun x => Applied f v (VolSet.vv (VolSet.flowLocals x))));
          [|intros l Hl; simpl in Hl]).
  - simpl. apply Applied_start.
  - now apply Applied_followerRead.
  - now apply Applied_authenticate.
  - now apply Applied_enableToken.
  - now apply Applied_autoRepair.
  - simpl. now apply Applied_zoneName.
Qed.

Lemma start_ZoneName f v :
  proto.ZoneName (VolSet.vv (VolSet.replicas f (VolSet.capacity f (VolSet.start v))))
  = proto.ZoneName v.
Proof.
  unfold VolSet.replicas, VolSet.capacity, VolSet.start.
  destruct (0 <? VolSet.optCapacity f)%Z, (0 <? VolSet.optReplicas f)%Z;
    reflexivity.
Qed.

Ltac blame s P :=
  exists s; split; [reflexivity | apply (ParseBool_error _ _ _ P)].

(** The four boolean options: the walk stops at the first one whose text
    is given and is no boolean literal, with the error of
    [strconv.ParseBool] on that text; the zone name is not reached. *)
Lemma booleans_flow env f l0 :
  match VolSet.andThen (VolSet.andThen (VolSet.andThen
          (VolSet.followerRead env f l0) (VolSet.authenticate env f))
          (VolSet.enableToken env f)) (VolSet.autoRepair env f) with
  | VolSet.Next l =>
      VolSet.firstInvalid f = None
      /\ proto.ZoneName (VolSet.vv l) = proto.ZoneName (VolSet.vv l0)
  | VolSet.Return l e =>
      (exists s, VolSet.firstInvalid f = Some s
                 /\ e = NumError "ParseBool" s)
      /\ proto.ZoneName (VolSet.vv l) = proto.ZoneName (VolSet.vv l0)
      /\ VolSet.isChange l = true
  end.
Proof.
  unfold VolSet.firstInvalid, VolSet.invalidBool, VolSet.booleans,
    VolSet.followerRead, VolSet.authenticate, VolSet.enableToken,
    VolSet.autoRepair, VolSet.boolean.
  cbn [find].
  destruct (VolSet.optFollowerRead f =? "") eqn:E1;
    destruct (ParseBool (VolSet.optFollowerRead f)) as [b1 [e1|]] eqn:P1;
    cbn [negb snd andb VolSet.andThen];
    try (split; [blame (VolSet.optFollowerRead f) P1 | auto]);
  destruct (VolSet.optAuthenticate f =? "") eqn:E2;
    destruct (ParseBool (VolSet.optAuthenticate f)) as [b2 [e2|]] eqn:P2;
    cbn [negb snd andb VolSet.andThen];
    try (split; [blame (VolSet.optAuthenticate f) P2 | auto]);
  destruct (VolSet.optEnableToken f =? "") eqn:E3;
    destruct (ParseBool (VolSet.optEnableToken f)) as [b3 [e3|]] eqn:P3;
    cbn [negb snd andb VolSet.andThen];
    try (split; [blame (VolSet.optEnableToken f) P3 | auto]);
  destruct (VolSet.optAutoRepair f =? "") eqn:E4;
    destruct (ParseBool (VolSet.optAutoRepair f)) as [b4 [e4|]] eqn:P4;
    cbn [negb snd andb VolSet.andThen];
    try (split; [blame (VolSet.optAutoRepair f) P4 | auto]);
  auto.
Qed.

Lemma diff_flow env f v :
  match VolSet.diff env f v with
  | VolSet.Next l => VolSet.firstInvalid f = None
  | VolSet.Return l e =>
      (exists s, VolSet.firstInvalid f = Some s
                 /\ e = NumError "ParseBool" s)
      /\ proto.ZoneName (VolSet.vv l) = proto.ZoneName v
      /\ VolSet.isChange l = true
  end.
Proof.
  unfold VolSet.diff. cbn [VolSet.andThen].
  pose proof (booleans_flow env f
                (VolSet.replicas f (VolSet.capacity f (VolSet.start v)))) as H.
  destruct (VolSet.andThen _ (VolSet.autoRepair env f)) as [l|l e];
    cbn [VolSet.andThen].
  - tauto.
  - rewrite start_ZoneName in H. exact H.
Qed.

(** ** A boolean option that is no boolean literal (C2) *)

Lemma set_returned_early env f volumeName v l e :
  getVolumeSimpleInfo env volumeName = (Some v, None) ->
  VolSet.diff env f v = VolSet.Return l e ->
  let r := newVolSetCmd env f volumeName in
  err (VolSet.run r) = Some e
  /\ remoteCalls (trace (VolSet.run r)) = [GetVolumeSimpleInfo volumeName]
  /\ steps (trace (VolSet.run r)) = [Fetch]
  /\ VolSet.locals r = Some l.
Proof.
  intros G D. cbv zeta. rewrite (newVolSetCmd_fetched _ _ _ _ G), D.
  cbn [VolSet.run VolSet.locals].
  rewrite deferErrout_err, deferErrout_remoteCalls, deferErrout_steps.
  repeat split.
Qed.

(** C2, as the code has it.  Once the snapshot [v] is fetched:
    - whatever the flags, a field of the working copy differs from the
      snapshot only if a value was given for it; in particular the fields
      of options without a valid value are the snapshot's ([Applied]);
    - if one of the four boolean options is given a text that
      [strconv.ParseBool] rejects, the command ends with the error of
      [ParseBool] on the first such text, asks nothing, issues no call
      after the fetch, and the zone name on the working copy is still the
      snapshot's.
    Nothing is said of the fields handled before the rejected option: they
    may already have their new values (see [set_mutates_before_failing]). *)
Theorem set_invalid_boolean_fails env f volumeName v :
  getVolumeSimpleInfo env volumeName = (Some v, None) ->
  let r := newVolSetCmd env f volumeName in
  (exists l, VolSet.locals r = Some l /\ Applied f v (VolSet.vv l))
  /\ (forall s, In s (VolSet.booleans f) -> VolSet.invalidBool s = true ->
      exists s',
        VolSet.firstInvalid f = Some s'
        /\ err (VolSet.run r) = Some (NumError "ParseBool" s')
        /\ remoteCalls (trace (VolSet.run r)) = [GetVolumeSimpleInfo volumeName]
        /\ steps (trace (VolSet.run r)) = [Fetch]
        /\ exists l, VolSet.locals r = Some l
                     /\ proto.ZoneName (VolSet.vv l) = proto.ZoneName v).
Proof.
  intros G r.
  pose proof (diff_Applied env f v) as A.
  pose proof (diff_flow env f v) as F.
  destruct (VolSet.diff env f v) as [l|l e] eqn:D; cbn [VolSet.flowLocals] in A.
  - split.
    + exists l. split; [|exact A].
      subst r. rewrite (newVolSetCmd_fetched _ _ _ _ G), D. reflexivity.
    + intros s Hin Hbad. exfalso.
      pose proof (find_none _ _ F s Hin) as N. congruence.
  - destruct (set_returned_early env f volumeName v l e G D)
      as (He & Hc & Hs & Hl).
    destruct F as ((s' & Hfirst & ->) & Hz & _).
    split; [exists l; auto|].
    intros s _ _. exists s'. repeat split; auto.
    exists l. auto.
Qed.

Lemma set_invalid_boolean_fails_witness :
  exists s',
    VolSet.firstInvalid Sample.capacity80_maybe = Some s'
    /\ err (VolSet.run (newVolSetCmd (Sample.env Sample.v1 "")
                          Sample.capacity80_maybe "v1"))
       = Some (NumError "ParseBool" s').
Proof.
  destruct (set_invalid_boolean_fails (Sample.env Sample.v1 "")
              Sample.capacity80_maybe "v1" Sample.v1 eq_refl) as [_ H].
  destruct (H "maybe") as (s' & Hf & He & _).
  - simpl. left. reflexivity.
  - reflexivity.
  - exists s'. split; [exact Hf | exact He].
Defined.

(** C2 as stated fails: with [--capacity 80 --follower-read maybe] the
    command fails on [maybe] after it has written the new capacity to the
    working copy. *)
Lemma set_mutates_before_failing :
  let r := newVolSetCmd (Sample.env Sample.v1 "") Sample.capacity80_maybe "v1" in
  err (VolSet.run r) = Some (NumError "ParseBool" "maybe")
  /\ option_map (fun l => proto.Capacity (VolSet.vv l)) (VolSet.locals r)
     = Some 80
  /\ proto.Capacity Sample.v1 = 50.
Proof. repeat split; vm_compute; reflexivity. Qed.

(** ** No option at all (C4) *)

Lemma diff_noOverride env f v :
  VolSet.noOverride f ->
  exists l, VolSet.diff env f v = VolSet.Next l
            /\ VolSet.isChange l = false /\ VolSet.vv l = v.
Proof.
  intros (C & R & F & A & T & P & Z).
  unfold VolSet.diff, VolSet.followerRead, VolSet.authenticate,
    VolSet.enableToken, VolSet.autoRepair, VolSet.boolean, VolSet.zoneName,
    VolSet.replicas, VolSet.capacity, VolSet.start.
  rewrite C, R, F, A, T, P, Z. simpl.
  eexists. split; [reflexivity|]. split; reflexivity.
Qed.

(** C4, as the code has it.  With no option given (but possibly [-y]),
    the command makes exactly one call to the master, the fetch of the
    snapshot, and never an update; when the fetch succeeds it prints "No
    changes has been set." and returns. *)
Theorem set_without_options env f volumeName :
  VolSet.noOverride f ->
  let r := VolSet.run (newVolSetCmd env f volumeName) in
  remoteCalls (trace r) = [GetVolumeSimpleInfo volumeName]
  /\ steps (trace r) = [Fetch]
  /\ (forall v, getVolumeSimpleInfo env volumeName = (Some v, None) ->
        trace r = [Call (GetVolumeSimpleInfo volumeName);
                   Stdout "No changes has been set.\n" []]
        /\ outcome r = Returned /\ err r = None).
Proof.
  intros N. cbv zeta. unfold newVolSetCmd.
  destruct (getVolumeSimpleInfo env volumeName) as [[v|] [e|]].
  1,3,4: cbn [VolSet.run];
         rewrite deferErrout_remoteCalls, deferErrout_steps;
         (split; [reflexivity | split; [reflexivity | intros ? [=]]]).
  destruct (diff_noOverride env f v N) as (l & -> & Hc & _).
  cbn [VolSet.run]. rewrite deferErrout_remoteCalls, deferErrout_steps.
  unfold VolSet.apply. rewrite Hc.
  split; [reflexivity | split; [reflexivity | intros ? _]].
  unfold deferErrout. simpl. repeat split.
Qed.

Lemma set_without_options_witness :
  remoteCalls
    (trace (VolSet.run (newVolSetCmd (Sample.env Sample.v1 "") VolSet.defaults "v1")))
  = [GetVolumeSimpleInfo "v1"].
Proof.
  apply (set_without_options (Sample.env Sample.v1 "") VolSet.defaults "v1").
  unfold VolSet.noOverride. simpl. tauto.
Defined.

(** C4 as stated fails: the command with no option does call the master,
    once, to fetch the snapshot. *)
Lemma set_without_options_fetches :
  remoteCalls
    (trace (VolSet.run (newVolSetCmd (Sample.env Sample.v1 "") VolSet.defaults "v1")))
  <> [].
Proof. vm_compute. discriminate. Qed.

(** ** The question before [delete] (C5) *)



(** ** The question before [create] (C6) *)

Lemma create_calls env f volumeName userID :
  remoteCalls (trace (VolCreate.create env f volumeName userID))
  = [VolCreate.call f volumeName userID].
Proof.
  unfold VolCreate.create, errout.
  destruct (reply env _); try destruct (erroutExit env); reflexivity.
Qed.

Lemma summary_calls env f volumeName userID k :
  remoteCalls (trace (VolCreate.summary env f volumeName userID k))
  = remoteCalls (trace k).
Proof. reflexivity. Qed.


Lemma create_consented env f volumeName userID :
  VolCreate.optYes f = false ->
  userConfirm env = "" \/ userConfirm env = "yes" ->
  remoteCalls (trace (newVolCreateCmd env f volumeName userID))
  = [VolCreate.call f volumeName userID].
Proof.
  intros Y H. unfold newVolCreateCmd. rewrite Y. cbn [negb].
  rewrite summary_calls.
  replace (negb (userConfirm env =? "yes")
           && negb (String.length (userConfirm env) =? 0)%nat) with false.
  - cbn [remoteCalls trace emit]. apply create_calls.
  - destruct H as [-> | ->]; reflexivity.
Qed.




(** ** The defaults of [create] (C10) *)

(** C10.  When no option is given and the operator consents (by "yes" or
    by the empty answer), the one call to the master is the creation call
    with 3 meta partitions, data partitions of 120 GB, a capacity of
    10 GB, 3 replicas, follower read on, auto repair off, zone
    "default". *)
Theorem create_defaults env volumeName userID :
  userConfirm env = "" \/ userConfirm env = "yes" ->
  remoteCalls (trace (newVolCreateCmd env VolCreate.defaults volumeName userID))
  = [CreateVolume volumeName userID 3 120 10 3 true false "default"].
Proof.
  intros H.
  apply (create_consented env VolCreate.defaults volumeName userID eq_refl H).
Qed.

Lemma create_defaults_witness :
  remoteCalls
    (trace (newVolCreateCmd (Sample.env Sample.v1 "yes") VolCreate.defaults "v1" "u1"))
  = [CreateVolume "v1" "u1" 3 120 10 3 true false "default"].
Proof.
  apply (create_defaults (Sample.env Sample.v1 "yes") "v1" "u1").
  right. reflexivity.
Defined.

(** ** A volume in an abnormal state is not transferred (C7) *)

Lemma transfer_abnormal env optForce volume userID v e :
  getVolumeSimpleInfo env volume = (Some v, e) ->
  proto.Status v <> 0 ->
  let r := VolTransfer.transfer env optForce volume userID in
  trace r = [Call (GetVolumeSimpleInfo volume)]
  /\ outcome r = Returned
  /\ err r = match e with
             | Some _ => e
             | None => Some (Errorf "volume status abnormal")
             end.
Proof.
  intros G S. cbv zeta. unfold VolTransfer.transfer. rewrite G.
  apply Z.eqb_neq in S. rewrite S.
  destruct e; repeat split.
Qed.

(** C7.  If the snapshot that [transfer] gets from the master has a
    status other than 0, no call but that fetch is made: neither the user
    lookup nor the transfer call is issued.  Once the operator has
    consented (or [-y] is given) the fetch is the one call made and, when
    it reports no error itself, the command fails with the error "volume
    status abnormal", which the deferred report writes to the error
    stream. *)
Theorem transfer_blocked_by_status env optYes optForce volume userID v e :
  getVolumeSimpleInfo env volume = (Some v, e) ->
  proto.Status v <> 0 ->
  let r := newVolTransferCmd env optYes optForce volume userID in
  (forall c, In c (remoteCalls (trace r)) -> c = GetVolumeSimpleInfo volume)
  /\ (optYes = true \/ userConfirm env = "yes" ->
      remoteCalls (trace r) = [GetVolumeSimpleInfo volume]
      /\ (e = None ->
          err r = Some (Errorf "volume status abnormal")
          /\ In (Errout "Transfer volume [%v] to user [%v] failed: %v\n"
                   [AStr volume; AStr userID;
                    AErr (Errorf "volume status abnormal")])
                (trace r))).
Proof.
  intros G S. cbv zeta. unfold newVolTransferCmd.
  destruct (transfer_abnormal env optForce volume userID v e G S)
    as (Ht & Ho & He).
  rewrite deferErrout_remoteCalls, deferErrout_err.
  assert (Hyes : optYes = true \/ userConfirm env = "yes" ->
    (if negb optYes
     then Stdout "Transfer volume [%v] to user [%v] (yes/no)[no]:"
            [AStr volume; AStr userID] ;;
          Scanln (userConfirm env) ;;
          (if negb (userConfirm env =? "yes")
           then Stdout "Abort by user.\n" [] ;; done None
           else VolTransfer.transfer env optForce volume userID)
     else VolTransfer.transfer env optForce volume userID)
    = (if negb optYes
       then Stdout "Transfer volume [%v] to user [%v] (yes/no)[no]:"
              [AStr volume; AStr userID] ;;
            Scanln (userConfirm env) ;;
            VolTransfer.transfer env optForce volume userID
       else VolTransfer.transfer env optForce volume userID)).
  { intros Y. destruct optYes; cbn [negb]; [reflexivity|].
    destruct Y as [Y|Y]; [discriminate|]. rewrite Y. reflexivity. }
  split.
  - destruct optYes; cbn [negb]; simpl;
      try destruct (userConfirm env =? "yes"); cbn [negb]; simpl;
      rewrite ?Ht; simpl; intros c H; intuition congruence.
  - intros Y. rewrite (Hyes Y). clear Hyes. split.
    + destruct optYes; cbn [negb]; simpl; rewrite Ht; reflexivity.
    + intros ->. split.
      * destruct optYes; cbn [negb]; simpl; exact He.
      * unfold deferErrout.
        destruct optYes; cbn [negb]; simpl; rewrite Ho, He, Ht; simpl; auto.
Qed.

Lemma transfer_blocked_by_status_witness :
  remoteCalls
    (trace (newVolTransferCmd (Sample.env Sample.abnormal "yes") false false
              "v1" "u2"))
  = [GetVolumeSimpleInfo "v1"].
Proof.
  refine (proj1 (proj2 (transfer_blocked_by_status
                          (Sample.env Sample.abnormal "yes") false
                          false "v1" "u2" Sample.abnormal None eq_refl _) _)).
  - simpl. discriminate.
  - right. reflexivity.
Defined.

(** A call past the fetch is evidence of a normal status. *)
Lemma transfer_reaches_lookup_only_if_normal env optYes optForce volume userID :
  In (GetUserInfo userID)
     (remoteCalls (trace (newVolTransferCmd env optYes optForce volume userID))) ->
  exists v, getVolumeSimpleInfo env volume = (Some v, None)
            /\ proto.Status v = 0.
Proof.
  unfold newVolTransferCmd. rewrite deferErrout_remoteCalls.
  unfold VolTransfer.transfer.
  destruct optYes; cbn [negb];
    try destruct (userConfirm env =? "yes"); cbn [negb];
    destruct (getVolumeSimpleInfo env volume) as [[v|] [e|]]; simpl;
    try destruct (proto.Status v =? 0)%Z eqn:S; simpl;
    try (intros H; repeat destruct H as [H|H]; try discriminate H;
         try contradiction; fail);
    intros _; exists v; apply Z.eqb_eq in S; auto.
Qed.

(** ** What the update call carries (C8) *)

Lemma apply_calls env f l :
  remoteCalls (trace (VolSet.apply env f l)) = []
  \/ remoteCalls (trace (VolSet.apply env f l)) = [VolSet.call (VolSet.vv l)].
Proof.
  unfold VolSet.apply, VolSet.update.
  destruct (VolSet.isChange l), (VolSet.optYes f); simpl;
    try destruct (negb (userConfirm env =? "yes")
                  && negb (String.length (userConfirm env) =? 0)%nat);
    simpl; try destruct (reply env _); simpl; auto.
Qed.

(** The calls of [set] after the fetch: none, or the update carrying the
    working copy the walk ended with. *)
Lemma set_calls env f volumeName :
  let r := newVolSetCmd env f volumeName in
  remoteCalls (trace (VolSet.run r)) = [GetVolumeSimpleInfo volumeName]
  \/ exists v l,
       getVolumeSimpleInfo env volumeName = (Some v, None)
       /\ VolSet.diff env f v = VolSet.Next l
       /\ remoteCalls (trace (VolSet.run r))
          = [GetVolumeSimpleInfo volumeName; VolSet.call (VolSet.vv l)].
Proof.
  cbv zeta. unfold newVolSetCmd.
  destruct (getVolumeSimpleInfo env volumeName) as [[v|] [e|]];
    try destruct (VolSet.diff env f v) as [l|l e0] eqn:D;
    cbn [VolSet.run]; rewrite deferErrout_remoteCalls; simpl; auto.
  destruct (apply_calls env f l) as [-> | ->]; auto.
  right. exists v, l. auto.
Qed.

(** Capacity and replica count of an update are the snapshot's unless a
    positive value was given; a positive replica count goes through
    [uint8]. *)
Lemma set_updates env f volumeName v c r :
  getVolumeSimpleInfo env volumeName = (Some v, None) ->
  In (c, r) (updates (trace (VolSet.run (newVolSetCmd env f volumeName)))) ->
  c = (if (0 <? VolSet.optCapacity f)%Z then VolSet.optCapacity f
       else proto.Capacity v)
  /\ r = (if (0 <? VolSet.optReplicas f)%Z then uint8 (VolSet.optReplicas f)
          else proto.DpReplicaNum v).
Proof.
  intros G. unfold updates.
  destruct (set_calls env f volumeName) as [H | (v' & l & G' & D & H)];
    cbv zeta in H; rewrite H; simpl.
  - intros [].
  - rewrite G in G'. injection G' as <-.
    pose proof (diff_Applied env f v) as A. rewrite D in A. simpl in A.
    intros [[= <- <-]|[]].
    split; [apply (new_Capacity _ _ _ A) | apply (new_DpReplicaNum _ _ _ A)].
Qed.

Lemma uint8_small n : 0 < n < 256 -> uint8 n = n.
Proof. intros H. unfold uint8. apply Z.mod_small. lia. Qed.

(** [set] never sends a capacity of 0 unless the volume already had it. *)
Lemma set_capacity_not_zeroed env f volumeName v r :
  getVolumeSimpleInfo env volumeName = (Some v, None) ->
  In (0, r) (updates (trace (VolSet.run (newVolSetCmd env f volumeName)))) ->
  proto.Capacity v = 0.
Proof.
  intros G H. destruct (set_updates env f volumeName v 0 r G H) as [C _].
  destruct (0 <? VolSet.optCapacity f)%Z eqn:E; [|auto].
  apply Z.ltb_lt in E. lia.
Qed.

(** A replica count of 0 or less is the same as none. *)
Lemma set_nonpositive_replicas env f volumeName :
  VolSet.optReplicas f <= 0 ->
  newVolSetCmd env f volumeName
  = newVolSetCmd env (VolSet.withReplicas f 0) volumeName.
Proof.
  intros H. unfold newVolSetCmd.
  assert (D : forall v, VolSet.diff env f v
                        = VolSet.diff env (VolSet.withReplicas f 0) v).
  { intros v. unfold VolSet.diff, VolSet.replicas. simpl.
    replace (0 <? VolSet.optReplicas f)%Z with false
      by (symmetry; apply Z.ltb_ge; exact H).
    reflexivity. }
  destruct (getVolumeSimpleInfo env volumeName) as [[v|] [e|]]; try reflexivity.
  rewrite <- D. destruct (VolSet.diff env f v); reflexivity.
Qed.

(** A replica count from 1 to 255 is sent as given. *)
Lemma set_replicas_in_range env f volumeName v c r :
  getVolumeSimpleInfo env volumeName = (Some v, None) ->
  0 < VolSet.optReplicas f < 256 ->
  In (c, r) (updates (trace (VolSet.run (newVolSetCmd env f volumeName)))) ->
  r = VolSet.optReplicas f.
Proof.
  intros G R H. destruct (set_updates env f volumeName v c r G H) as [_ ->].
  replace (0 <? VolSet.optReplicas f)%Z with true
    by (symmetry; apply Z.ltb_lt; lia).
  now apply uint8_small.
Qed.

(** C8, where the code departs from it: [--replicas 256] passes the test
    [optReplicas > 0], is shown to the operator as "3 -> 256", and is sent
    to the master as [uint8(256)], a replica count of 0. *)
Theorem set_replicas_256_sends_zero :
  let r := VolSet.run (newVolSetCmd (Sample.env Sample.v1 "yes")
                         Sample.replicas256 "v1") in
  updates (trace r) = [(50, 0)]
  /\ exists summary,
       In (StdoutString summary) (trace r)
       /\ In (Sprintf "  Replicas            : %v -> %v\n" [AInt 3; AInt 256])
             summary.
Proof.
  split; [vm_compute; reflexivity|].
  eexists. split.
  - vm_compute. right. left. reflexivity.
  - vm_compute. do 3 right. left. reflexivity.
Qed.

(** ** The authorization key (C9) *)

Lemma set_authKeys env f volumeName k :
  In k (authKeys (trace (VolSet.run (newVolSetCmd env f volumeName)))) ->
  exists v, fst (getVolumeSimpleInfo env volumeName) = Some v
            /\ k = calcAuthKey (proto.Owner v).
Proof.
  unfold authKeys.
  destruct (set_calls env f volumeName) as [H | (v & l & G & D & H)];
    cbv zeta in H; rewrite H; simpl.
  - intros [].
  - intros [<-|[]]. exists v. rewrite G. split; [reflexivity|].
    pose proof (diff_Applied env f v) as A. rewrite D in A. simpl in A.
    now rewrite (same_Owner _ _ _ A).
Qed.

Lemma delete_authKeys env optYes volumeName k :
  In k (authKeys (trace (newVolDeleteCmd env optYes volumeName))) ->
  exists v, fst (getVolumeSimpleInfo env volumeName) = Some v
            /\ k = calcAuthKey (proto.Owner v).
Proof.
  unfold authKeys, newVolDeleteCmd, VolDelete.delete, errout.
  destruct optYes; cbn [negb];
    try destruct (userConfirm env =? "yes"); cbn [negb];
    destruct (getVolumeSimpleInfo env volumeName) as [[v|] [e|]]; simpl;
    destruct (erroutExit env); simpl;
    try destruct (reply env _); simpl;
    intros H; try contradiction;
    destruct H as [<-|[]]; exists v; auto.
Qed.

(** C9.  Every authorization key that [set] or [delete] presents is
    [calcAuthKey] of the owner named in the snapshot, and nothing else of
    the snapshot, of the flags, or of the answers of the operator and the
    master enters it: two invocations on volumes with the same owner
    present the same key, whatever else differs. *)
Theorem authKey_from_owner_alone
    env1 env2 f1 f2 optYes1 optYes2 volumeName1 volumeName2 v1 v2 k1 k2 :
  fst (getVolumeSimpleInfo env1 volumeName1) = Some v1 ->
  fst (getVolumeSimpleInfo env2 volumeName2) = Some v2 ->
  proto.Owner v1 = proto.Owner v2 ->
  In k1 (keysSent env1 f1 optYes1 volumeName1) ->
  In k2 (keysSent env2 f2 optYes2 volumeName2) ->
  k1 = calcAuthKey (proto.Owner v1) /\ k2 = k1.
Proof.
  intros G1 G2 O H1 H2. unfold keysSent in *.
  assert (K : forall env f y name v k,
             fst (getVolumeSimpleInfo env name) = Some v ->
             In k (authKeys (trace (VolSet.run (newVolSetCmd env f name)))
                   ++ authKeys (trace (newVolDeleteCmd env y name))) ->
             k = calcAuthKey (proto.Owner v)).
  { intros env f y name v k G H. apply in_app_or in H.
    destruct H as [H|H];
      [apply set_authKeys in H | apply delete_authKeys in H];
      destruct H as (v' & G' & ->); congruence. }
  rewrite (K _ _ _ _ _ _ G1 H1), (K _ _ _ _ _ _ G2 H2), O. auto.
Qed.

Lemma authKey_from_owner_alone_witness :
  "e4774cdda0793f86414e8b9140bb6db4" = calcAuthKey (proto.Owner Sample.v1)
  /\ "e4774cdda0793f86414e8b9140bb6db4" = "e4774cdda0793f86414e8b9140bb6db4".
Proof.
  apply (authKey_from_owner_alone
           (Sample.env Sample.v1 "yes") (Sample.env Sample.v1' "yes")
           Sample.capacity80 VolSet.defaults false false "v1" "v1"
           Sample.v1 Sample.v1').
  - reflexivity.
  - reflexivity.
  - reflexivity.
  - vm_compute. left. reflexivity.
  - vm_compute. left. reflexivity.
Defined.

(** ** The daemon: signals, [Start] and [Sync] (C3) *)

Lemma modifyOpenFiles_ok env :
  snd (Supervisor.modifyOpenFiles env) = None ->
  Supervisor.modifyOpenFiles env
  = ([Supervisor.Getrlimit; Supervisor.Println "rLimit"; Supervisor.Setrlimit;
      Supervisor.Getrlimit; Supervisor.Println "Rlimit Final"], None).
Proof.
  unfold Supervisor.modifyOpenFiles.
  destruct (Supervisor.getrlimit1 env), (Supervisor.setrlimit env),
    (Supervisor.getrlimit2 env); simpl; intros H; try discriminate H;
    reflexivity.
Qed.

Lemma preamble_quiet env module :
  ~ In Supervisor.SignalNotify (preamble env module)
  /\ ~ In Supervisor.Start (preamble env module)
  /\ ~ In Supervisor.Sync (preamble env module).
Proof.
  unfold preamble.
  destruct (negb (Supervisor.profPort env =? "")); simpl;
    repeat split; intros H;
    repeat (destruct H as [H|H]; [discriminate H|]); exact H.
Qed.

Lemma serve_no_panic env e :
  Supervisor.outcome (Supervisor.serve env) <> Supervisor.Panic e.
Proof.
  unfold Supervisor.serve.
  destruct (Supervisor.start env), (Supervisor.logFatalExit env),
    (Supervisor.syncReturns env); simpl; discriminate.
Qed.

Lemma main_reaches_serve env :
  reachesServe env ->
  exists module,
    Supervisor.moduleOf (Supervisor.role env) = Some module
    /\ Supervisor.trace (Supervisor.main env)
       = (preamble env module ++ Supervisor.trace (Supervisor.serve env))%list
    /\ Supervisor.outcome (Supervisor.main env)
       = Supervisor.outcome (Supervisor.serve env).
Proof.
  intros (M & V & R & L).
  destruct (Supervisor.moduleOf (Supervisor.role env)) as [module|] eqn:E;
    [|congruence].
  exists module. split; [reflexivity|].
  assert (B : Supervisor.boot env
              = {| Supervisor.trace :=
                     (preamble env module
                      ++ Supervisor.trace (Supervisor.serve env))%list;
                   Supervisor.outcome :=
                     Supervisor.outcome (Supervisor.serve env) |}).
  { unfold Supervisor.boot, preamble.
    rewrite (modifyOpenFiles_ok env M), V, E, L.
    destruct (negb (Supervisor.profPort env =? "")); reflexivity. }
  unfold Supervisor.main. rewrite B.
  cbn [Supervisor.outcome Supervisor.trace].
  destruct (Supervisor.outcome (Supervisor.serve env)) eqn:O;
    cbn [Supervisor.outcome Supervisor.trace]; auto.
  exfalso. eapply serve_no_panic. eassumption.
Qed.

(** C3, as the code has it.  When [main] gets as far as line 182, it
    registers the signal interceptor first and calls [Start] next,
    whatever [Start] will answer.  If [Start] fails, it prints and logs
    the failure with [LogFatal] and never calls [Sync]; if [LogFatal]
    returns, it flushes the log and exits with code 1.  If [Start]
    succeeds, it calls [Sync] and, once [Sync] returns, flushes the log and
    exits with code 0. *)
Theorem start_follows_interceptor env :
  reachesServe env ->
  let r := Supervisor.main env in
  exists pre post,
    Supervisor.trace r = (pre ++ registerThenStart ++ post)%list
    /\ ~ In Supervisor.SignalNotify pre
    /\ ~ In Supervisor.Start pre
    /\ ~ In Supervisor.Sync pre
    /\ match Supervisor.start env with
       | Some _ =>
           ~ In Supervisor.Sync (Supervisor.trace r)
           /\ match Supervisor.logFatalExit env with
              | None =>
                  post = [Supervisor.Println
                            "Fatal: failed to start the baud storage daemon - ";
                          Supervisor.LogFatal; Supervisor.LogFlush]
                  /\ Supervisor.outcome r = Supervisor.Exit 1
              | Some code =>
                  post = [Supervisor.Println
                            "Fatal: failed to start the baud storage daemon - ";
                          Supervisor.LogFatal]
                  /\ Supervisor.outcome r = Supervisor.Exit code
              end
       | None =>
           if Supervisor.syncReturns env
           then post = [Supervisor.Sync; Supervisor.LogFlush]
                /\ Supervisor.outcome r = Supervisor.Exit 0
           else post = [Supervisor.Sync]
                /\ Supervisor.outcome r = Supervisor.Blocked
       end.
Proof.
  intros H. cbv zeta.
  destruct (main_reaches_serve env H) as (module & _ & T & O).
  destruct (preamble_quiet env module) as (Q1 & Q2 & Q3).
  rewrite T, O. clear T O.
  remember (preamble env module) as pre eqn:P. clear P.
  unfold Supervisor.serve, Supervisor.interceptSignal.
  exists pre.
  destruct (Supervisor.start env) as [e|].
  - destruct (Supervisor.logFatalExit env) as [code|]; simpl;
      eexists; (split; [reflexivity|]); repeat split; auto;
      intros I; apply in_app_or in I; destruct I as [I|I];
      try (apply Q3; exact I);
      simpl in I; repeat (destruct I as [I|I]; [discriminate I|]); exact I.
  - destruct (Supervisor.syncReturns env); simpl;
      eexists; (split; [reflexivity|]); repeat split; auto.
Qed.

Lemma start_follows_interceptor_witness :
  exists pre post,
    Supervisor.trace (Supervisor.main (Sample.daemon None))
    = (pre ++ registerThenStart ++ post)%list
    /\ post = [Supervisor.Sync; Supervisor.LogFlush].
Proof.
  destruct (start_follows_interceptor (Sample.daemon None))
    as (pre & post & T & _ & _ & _ & P & _).
  - unfold reachesServe. simpl. repeat split; discriminate.
  - exists pre, post. split; [exact T | exact P].
Defined.

(** C3 as stated fails: the interceptor is registered before [Start] is
    called, so it is registered also when [Start] fails. *)
Lemma interceptor_registered_though_start_fails :
  Supervisor.start (Sample.daemon (Some "boom")) = Some "boom"
  /\ In Supervisor.SignalNotify
        (Supervisor.trace (Supervisor.main (Sample.daemon (Some "boom"))))
  /\ Supervisor.outcome (Supervisor.main (Sample.daemon (Some "boom")))
     = Supervisor.Exit 1.
Proof.
  split; [reflexivity|]. split; [|reflexivity].
  vm_compute. do 11 right. left. reflexivity.
Qed.

(* ================================================================== *)
(** * Further properties *)
(* ================================================================== *)

(** The digest is never to be unfolded by simplification. *)
Arguments calcAuthKey : simpl never.

(** ** Reading a partition count (add-dp) *)

Lemma digit_digitChar d :
  0 <= d < 10 -> strconv.digit (Numeral.digitChar d) = Some d.
Proof.
  intros H.
  assert (C : d = 0 \/ d = 1 \/ d = 2 \/ d = 3 \/ d = 4 \/ d = 5 \/ d = 6
              \/ d = 7 \/ d = 8 \/ d = 9) by lia.
  repeat (destruct C as [-> | C]; [reflexivity|]). subst. reflexivity.
Qed.

Lemma digitChar_no_sign d :
  0 <= d < 10 ->
  (Numeral.digitChar d =? "+")%char = false
  /\ (Numeral.digitChar d =? "-")%char = false.
Proof.
  intros H.
  assert (C : d = 0 \/ d = 1 \/ d = 2 \/ d = 3 \/ d = 4 \/ d = 5 \/ d = 6
              \/ d = 7 \/ d = 8 \/ d = 9) by lia.
  repeat (destruct C as [-> | C]; [split; reflexivity|]).
  subst. split; reflexivity.
Qed.

(** One round of the loop on a digit that fits. *)
Lemma digits_step d a tail :
  0 <= d < 10 -> 0 <= a -> a * 10 + d <= strconv.maxUint64 ->
  strconv.digits (String (Numeral.digitChar d) tail) a
  = strconv.digits tail (a * 10 + d).
Proof.
  intros Hd Ha Hm. cbn [strconv.digits]. rewrite (digit_digitChar d Hd).
  unfold strconv.cutoff, strconv.maxUint64 in *.
  change (2 ^ 64 - 1) with 18446744073709551615 in *.
  change (18446744073709551615 / 10 + 1) with 1844674407370955162.
  change (2 ^ 64) with 18446744073709551616.
  assert ((a >=? 1844674407370955162)%Z = false) as ->
    by (rewrite Z.geb_leb; apply Z.leb_gt; lia).
  rewrite (Z.mod_small (a * 10 + d)) by lia.
  assert ((a * 10 + d <? a * 10)%Z = false) as -> by (apply Z.ltb_ge; lia).
  assert ((a * 10 + d >? 18446744073709551615)%Z = false) as ->
    by (rewrite Z.gtb_ltb; apply Z.ltb_ge; lia).
  reflexivity.
Qed.

(** Reading back the digits of [n]: the value so far is shifted by their
    number and [n] is added. *)
Lemma digits_decimal_aux fuel : forall n tail,
  0 <= n < 10 ^ Z.of_nat fuel ->
  exists m, 0 < m /\ forall a,
    0 <= a -> a * m + n <= strconv.maxUint64 ->
    strconv.digits (Numeral.decimal_aux fuel n tail) a
    = strconv.digits tail (a * m + n).
Proof.
  induction fuel as [|fuel IH]; intros n tail Hn.
  - exists 1. split; [lia|]. intros a _ _. simpl in *.
    replace (a * 1 + n) with a by lia. reflexivity.
  - cbn [Numeral.decimal_aux].
    destruct (n <? 10)%Z eqn:E.
    + apply Z.ltb_lt in E. exists 10. split; [lia|]. intros a Ha Hm.
      rewrite Z.mod_small by lia. now apply digits_step.
    + apply Z.ltb_ge in E.
      assert (Hq : 0 <= n / 10 < 10 ^ Z.of_nat fuel).
      { split; [apply Z.div_pos; lia|].
        apply Z.div_lt_upper_bound; [lia|].
        rewrite Nat2Z.inj_succ, Z.pow_succ_r in Hn by lia. lia. }
      destruct (IH (n / 10) (String (Numeral.digitChar (n mod 10)) tail) Hq)
        as (m & Hm0 & Hread).
      exists (m * 10). split; [lia|]. intros a Ha Hmax.
      pose proof (Z.div_mod n 10 ltac:(lia)) as Hdm.
      pose proof (Z.mod_pos_bound n 10 ltac:(lia)) as Hr.
      assert (Ham : 0 <= a * m) by (apply Z.mul_nonneg_nonneg; lia).
      rewrite Hread by lia.
      rewrite digits_step by lia.
      f_equal. lia.
Qed.

Lemma decimal_aux_head fuel : forall n tail,
  0 <= n ->
  exists d rest, 0 <= d < 10
    /\ Numeral.decimal_aux (S fuel) n tail = String (Numeral.digitChar d) rest.
Proof.
  induction fuel as [|fuel IH]; intros n tail Hn;
    pose proof (Z.mod_pos_bound n 10 ltac:(lia)) as Hr.
  - cbn. destruct (n <? 10)%Z; eauto.
  - cbn [Numeral.decimal_aux]. destruct (n <? 10)%Z eqn:E; [eauto|].
    apply (IH (n / 10)). apply Z.div_pos; lia.
Qed.

Lemma ParseUint_decimal n :
  0 <= n <= strconv.maxUint64 ->
  strconv.ParseUint (Numeral.decimal n) = (n, None).
Proof.
  intros Hn. unfold strconv.ParseUint, Numeral.decimal.
  destruct (decimal_aux_head 19 n "" ltac:(lia)) as (d & rest & _ & Hhead).
  rewrite Hhead. cbn [String.eqb]. rewrite <- Hhead.
  destruct (digits_decimal_aux 20 n "") as (m & _ & Hread).
  { unfold strconv.maxUint64 in Hn. split; [lia|].
    change (10 ^ Z.of_nat 20) with 100000000000000000000.
    change (2 ^ 64 - 1) with 18446744073709551615 in Hn. lia. }
  rewrite (Hread 0) by lia. reflexivity.
Qed.

(** A numeral from 0 to 2^63 - 1 is read as its value, also behind a plus
    sign; behind a minus sign a numeral up to 2^63 is read as the
    opposite. *)
Lemma ParseInt_decimal n :
  0 <= n < 2 ^ 63 ->
  strconv.ParseInt (Numeral.decimal n) = (n, None)
  /\ strconv.ParseInt (String "+" (Numeral.decimal n)) = (n, None).
Proof.
  intros Hn.
  assert (Hu : strconv.ParseUint (Numeral.decimal n) = (n, None)).
  { apply ParseUint_decimal. unfold strconv.maxUint64. lia. }
  assert (Hge : (n >=? 2 ^ 63)%Z = false)
    by (rewrite Z.geb_leb; apply Z.leb_gt; lia).
  split.
  - destruct (decimal_aux_head 19 n "" ltac:(lia)) as (d & rest & Hd & Hhead).
    unfold Numeral.decimal in *. unfold strconv.ParseInt.
    rewrite Hhead. destruct (digitChar_no_sign d Hd) as [-> ->].
    cbn [orb]. rewrite <- Hhead, Hu. cbn [negb andb]. rewrite Hge.
    reflexivity.
  - unfold strconv.ParseInt.
    change (("+" =? "-")%char) with false. change (("+" =? "+")%char) with true.
    cbn [orb]. rewrite Hu. cbn [negb andb]. rewrite Hge. reflexivity.
Qed.

Lemma ParseInt_minus_decimal n :
  0 <= n <= 2 ^ 63 ->
  strconv.ParseInt (String "-" (Numeral.decimal n)) = (- n, None).
Proof.
  intros Hn. unfold strconv.ParseInt.
  change (("-" =? "-")%char) with true. change (("-" =? "+")%char) with false.
  cbn [orb].
  rewrite ParseUint_decimal by (unfold strconv.maxUint64; lia).
  cbn [negb andb].
  assert ((n >? 2 ^ 63)%Z = false) as ->
    by (rewrite Z.gtb_ltb; apply Z.ltb_ge; lia).
  reflexivity.
Qed.


Lemma digits_ok s : forall a v,
  0 <= a -> strconv.digits s a = (v, None) ->
  allDigits s = true /\ 0 <= v <= strconv.maxUint64 \/ s = "" /\ v = a.
Proof.
  induction s as [|c s IH]; intros a v Ha H.
  - right. cbn in H. injection H as <-. auto.
  - left. cbn [strconv.digits allDigits] in *.
    destruct (strconv.digit c) as [d|]; [|discriminate].
    destruct (a >=? strconv.cutoff)%Z; [discriminate|].
    destruct ((((a * 10 + d) mod 2 ^ 64 <? a * 10)
               || ((a * 10 + d) mod 2 ^ 64 >? strconv.maxUint64))%Z) eqn:E;
      [discriminate|].
    apply orb_false_elim in E. destruct E as [_ E].
    rewrite Z.gtb_ltb in E. apply Z.ltb_ge in E.
    pose proof (Z.mod_pos_bound (a * 10 + d) (2 ^ 64) ltac:(lia)) as Hb.
    destruct (IH _ _ (proj1 Hb) H) as [[Hs Hv] | [-> ->]]; [auto|].
    split; [reflexivity|]. lia.
Qed.

Lemma ParseUint_ok s v :
  strconv.ParseUint s = (v, None) ->
  negb (s =? "") && allDigits s = true /\ 0 <= v <= strconv.maxUint64.
Proof.
  unfold strconv.ParseUint. destruct (s =? "") eqn:E; [discriminate|].
  intros H. destruct (digits_ok s 0 v ltac:(lia) H) as [[Hs Hv] | [-> _]].
  - rewrite Hs. auto.
  - discriminate.
Qed.

Lemma digits_range s : forall a v,
  strconv.digits s a = (v, Some strconv.ErrRange) -> v = strconv.maxUint64.
Proof.
  induction s as [|c s IH]; intros a v H; cbn [strconv.digits] in H.
  - discriminate.
  - destruct (strconv.digit c) as [d|]; [|discriminate].
    destruct (a >=? strconv.cutoff)%Z; [congruence|].
    destruct ((((a * 10 + d) mod 2 ^ 64 <? a * 10)
               || ((a * 10 + d) mod 2 ^ 64 >? strconv.maxUint64))%Z);
      [congruence|].
    eapply IH. eassumption.
Qed.

(** What [ParseInt] accepts is an optionally signed decimal numeral, and
    what it returns then fits 64 bits. *)
Lemma ParseInt_ok s c :
  strconv.ParseInt s = (c, None) ->
  signedNumeral s = true /\ - 2 ^ 63 <= c < 2 ^ 63.
Proof.
  unfold strconv.ParseInt, signedNumeral. destruct s as [|c0 rest]; [discriminate|].
  destruct (strconv.ParseUint
              (if ((c0 =? "+") || (c0 =? "-"))%char then rest
               else String c0 rest)) as [un [[|]|]] eqn:U;
    try discriminate.
  - assert (un = strconv.maxUint64) as ->.
    { unfold strconv.ParseUint in U.
      destruct (_ =? "") in U; [discriminate|]. eapply digits_range, U. }
    change (strconv.maxUint64 >=? 2 ^ 63)%Z with true.
    change (strconv.maxUint64 >? 2 ^ 63)%Z with true.
    destruct (c0 =? "-")%char; discriminate.
  - apply ParseUint_ok in U. destruct U as [Hs Hv].
    destruct (c0 =? "-")%char eqn:M; cbn [negb andb].
    + rewrite orb_true_r in *.
      destruct (un >? 2 ^ 63)%Z eqn:G; [discriminate|].
      rewrite Z.gtb_ltb in G. apply Z.ltb_ge in G.
      intros [= <-]. split; [exact Hs|lia].
    + rewrite orb_false_r in *.
      destruct (un >=? 2 ^ 63)%Z eqn:G; [discriminate|].
      rewrite Z.geb_leb in G. apply Z.leb_gt in G.
      intros [= <-]. split; [|lia].
      destruct (c0 =? "+")%char; [exact Hs|].
      apply andb_prop in Hs. tauto.
Qed.

(** X1.  [add-dp] with the decimal numeral of a count from 1 to
    2^63 - 1, with or without a plus sign, asks the master for exactly
    that many partitions of that volume, once. *)
Theorem add_dp_requests_the_count env volume n :
  1 <= n < 2 ^ 63 ->
  requested (VolAddDP.trace (newVolAddDPCmd env volume (Numeral.decimal n)))
  = [(volume, n)]
  /\ requested
       (VolAddDP.trace (newVolAddDPCmd env volume (String "+" (Numeral.decimal n))))
     = [(volume, n)].
Proof.
  intros Hn. destruct (ParseInt_decimal n ltac:(lia)) as [P1 P2].
  unfold newVolAddDPCmd, VolAddDP.body. rewrite P1, P2.
  assert ((n <? 1)%Z = false) as -> by (apply Z.ltb_ge; lia).
  destruct (VolAddDP.createDataPartition env volume n); split; reflexivity.
Qed.

Lemma add_dp_requests_the_count_witness :
  requested (VolAddDP.trace (newVolAddDPCmd Sample2.master "myvol" "2"))
  = [("myvol", 2)].
Proof.
  apply (add_dp_requests_the_count Sample2.master "myvol" 2). lia.
Defined.

(** X2.  Whatever its arguments, [add-dp] makes at most one request; when
    it makes one, the text given is an optionally signed decimal numeral,
    and the count requested is its value, at least 1 and below 2^63. *)
Theorem add_dp_never_requests_less_than_one env volume number :
  let r := newVolAddDPCmd env volume number in
  requested (VolAddDP.trace r) = []
  \/ exists count,
       requested (VolAddDP.trace r) = [(volume, count)]
       /\ strconv.ParseInt number = (count, None)
       /\ signedNumeral number = true
       /\ 1 <= count < 2 ^ 63.
Proof.
  cbv zeta. unfold newVolAddDPCmd, VolAddDP.body.
  destruct (strconv.ParseInt number) as [count [e|]] eqn:P; [left; reflexivity|].
  destruct (count <? 1)%Z eqn:C; [left; reflexivity|].
  right. exists count. apply Z.ltb_ge in C.
  destruct (ParseInt_ok number count P) as [Hs Hb].
  repeat split; try lia; try assumption.
  destruct (VolAddDP.createDataPartition env volume count); reflexivity.
Qed.

(** X3.  [add-dp] with "0", or with a minus sign before the numeral of a
    number up to 2^63, requests nothing and fails with "number must be
    larger than 0". *)
Theorem add_dp_rejects_zero_and_negative env volume n number :
  0 <= n <= 2 ^ 63 ->
  number = String "-" (Numeral.decimal n)
  \/ n = 0 /\ number = Numeral.decimal n ->
  let r := newVolAddDPCmd env volume number in
  VolAddDP.trace r
  = [VolAddDP.Report "Create data partition failed: %v\n"
       (VolAddDP.New "number must be larger than 0")]
  /\ VolAddDP.err r = Some (VolAddDP.New "number must be larger than 0").
Proof.
  intros Hn Hs. cbv zeta. unfold newVolAddDPCmd, VolAddDP.body.
  assert (P : exists c, strconv.ParseInt number = (c, None) /\ c <= 0).
  { destruct Hs as [-> | [-> ->]].
    - exists (- n). split; [now apply ParseInt_minus_decimal | lia].
    - exists 0. split; [reflexivity | lia]. }
  destruct P as (c & -> & Hc).
  assert ((c <? 1)%Z = true) as -> by (apply Z.ltb_lt; lia).
  split; reflexivity.
Qed.

Lemma add_dp_rejects_zero_and_negative_witness :
  VolAddDP.err (newVolAddDPCmd Sample2.master "myvol" "-3")
  = Some (VolAddDP.New "number must be larger than 0")
  /\ VolAddDP.err (newVolAddDPCmd Sample2.master "myvol" "0")
     = Some (VolAddDP.New "number must be larger than 0").
Proof.
  split.
  - apply (add_dp_rejects_zero_and_negative Sample2.master "myvol" 3 "-3");
      [lia | left; reflexivity].
  - apply (add_dp_rejects_zero_and_negative Sample2.master "myvol" 0 "0");
      [lia | right; split; reflexivity].
Defined.

(** X4.  [add-dp] with the numeral of a number from 2^63 to 2^64 - 1
    requests nothing and fails with the range error of [ParseInt] on that
    text. *)
Theorem add_dp_rejects_out_of_range env volume n :
  2 ^ 63 <= n <= strconv.maxUint64 ->
  let r := newVolAddDPCmd env volume (Numeral.decimal n) in
  requested (VolAddDP.trace r) = []
  /\ VolAddDP.err r
     = Some (VolAddDP.Parse {| strconv.Func := "ParseInt";
                               strconv.Num := Numeral.decimal n;
                               strconv.Err := strconv.ErrRange |}).
Proof.
  intros Hn. cbv zeta. unfold newVolAddDPCmd, VolAddDP.body.
  assert (P : strconv.ParseInt (Numeral.decimal n)
              = (2 ^ 63 - 1,
                 Some {| strconv.Func := "ParseInt";
                         strconv.Num := Numeral.decimal n;
                         strconv.Err := strconv.ErrRange |})).
  { destruct (decimal_aux_head 19 n "" ltac:(lia)) as (d & rest & Hd & Hhead).
    pose proof (ParseUint_decimal n ltac:(lia)) as U.
    unfold Numeral.decimal in *. unfold strconv.ParseInt.
    rewrite Hhead. destruct (digitChar_no_sign d Hd) as [-> ->].
    cbn [orb]. rewrite <- Hhead, U. cbn [negb andb].
    assert ((n >=? 2 ^ 63)%Z = true) as ->
      by (rewrite Z.geb_leb; apply Z.leb_le; lia).
    reflexivity. }
  rewrite P. split; reflexivity.
Qed.

Lemma add_dp_rejects_out_of_range_witness :
  requested
    (VolAddDP.trace (newVolAddDPCmd Sample2.master "myvol" "9223372036854775808"))
  = [].
Proof.
  apply (add_dp_rejects_out_of_range Sample2.master "myvol" 9223372036854775808).
  unfold strconv.maxUint64. lia.
Defined.

(** ** The shape of an authorization key *)

Lemma le_bytes_length k : forall n, List.length (MD5.le_bytes k n) = k.
Proof. induction k as [|k IH]; intros n; simpl; [reflexivity|now rewrite IH]. Qed.

Lemma sum_length msg : List.length (MD5.sum msg) = 16%nat.
Proof.
  unfold MD5.sum. rewrite !length_app, !le_bytes_length. reflexivity.
Qed.

Lemma hexdigit_lower n :
  lowerHex (Bytes.hexdigit n) = true
  /\ Bytes.lower (Bytes.hexdigit n) = Bytes.hexdigit n.
Proof.
  destruct n as [|p|p]; try (split; reflexivity).
  do 5 (try (destruct p as [p|p|]; try (split; reflexivity))).
Qed.

Lemma EncodeToString_hex bs :
  String.length (Bytes.EncodeToString bs) = (2 * List.length bs)%nat
  /\ allLowerHex (Bytes.EncodeToString bs) = true
  /\ Bytes.ToLower (Bytes.EncodeToString bs) = Bytes.EncodeToString bs.
Proof.
  induction bs as [|b bs (IHl & IHh & IHt)]; [repeat split|].
  cbn [Bytes.EncodeToString String.length allLowerHex Bytes.ToLower List.length].
  destruct (hexdigit_lower (Z.shiftr b 4)) as [-> ->].
  destruct (hexdigit_lower (Z.land b 15)) as [-> ->].
  rewrite IHl, IHh, IHt. repeat split. lia.
Qed.

(** X5.  Whatever the owner string, its authorization key is 32
    characters long, each a digit or a letter from a to f in lower case:
    the hexadecimal text of 16 bytes, which the final [strings.ToLower]
    leaves as it is. *)
Theorem calcAuthKey_is_32_hex_digits key :
  String.length (calcAuthKey key) = 32%nat
  /\ allLowerHex (calcAuthKey key) = true
  /\ calcAuthKey key = Bytes.EncodeToString (MD5.sum (Bytes.of_string key)).
Proof.
  unfold calcAuthKey. cbv zeta.
  destruct (EncodeToString_hex (MD5.sum (Bytes.of_string key))) as (L & H & T).
  rewrite T, L, H, sum_length. repeat split.
Qed.

(** ** Listing volumes *)

Lemma list_rows_all {VolInfo : Type} (env : VolList.Env VolInfo) detail :
  forall vols i,
    fetchesOk env i vols ->
    VolList.rows env detail i (map Some vols)
    = {| VolList.trace := listedFrom env detail i vols;
         VolList.outcome := Returned; VolList.err := None |}.
Proof.
  induction vols as [|vol vols IH]; intros i H; [reflexivity|].
  destruct H as [Hf Hrest].
  cbn [map VolList.rows listedFrom]. unfold listed.
  destruct (VolList.fetch env i (VolList.Name env vol)) as [vv e].
  cbn in Hf. subst e. rewrite (IH (S i) Hrest). reflexivity.
Qed.

Lemma list_rows_stop {VolInfo : Type} (env : VolList.Env VolInfo) detail
    vol after e :
  forall before i,
    fetchesOk env i before ->
    snd (VolList.fetch env (i + List.length before) (VolList.Name env vol))
    = Some e ->
    VolList.rows env detail i (map Some before ++ Some vol :: after)
    = {| VolList.trace :=
           (listedFrom env detail i before
            ++ [VolList.Seen (Call (GetVolumeSimpleInfo (VolList.Name env vol)))])%list;
         VolList.outcome := Returned; VolList.err := Some e |}.
Proof.
  induction before as [|b before IH]; intros i H He.
  - cbn [map app VolList.rows listedFrom List.length] in *.
    rewrite Nat.add_0_r in He.
    destruct (VolList.fetch env i (VolList.Name env vol)) as [vv e'].
    cbn in He. subst e'. reflexivity.
  - destruct H as [Hf Hrest].
    cbn [map app VolList.rows listedFrom List.length] in *. unfold listed.
    destruct (VolList.fetch env i (VolList.Name env b)) as [vv e'].
    cbn in Hf. subst e'.
    rewrite (IH (S i) Hrest) by (now rewrite Nat.add_succ_comm).
    reflexivity.
Qed.

Lemma fetchedNames_listedFrom {VolInfo : Type} (env : VolList.Env VolInfo)
    detail : forall vols i tail,
  fetchedNames (listedFrom env detail i vols ++ tail)
  = (map (VolList.Name env) vols ++ fetchedNames tail)%list.
Proof.
  induction vols as [|vol vols IH]; intros i tail; [reflexivity|].
  cbn [listedFrom map]. unfold listed, VolList.row.
  rewrite <- app_assoc. cbn [app fetchedNames]. now rewrite IH.
Qed.

(** X6.  When the master lists the volumes and answers every snapshot
    request, [volume list] prints the header, then, volume by volume in
    the order of the master's list, fetches the snapshot and prints the
    row; it fetches one snapshot per volume, with or without
    [--detail-mod]. *)
Theorem list_prints_every_volume {VolInfo : Type} (env : VolList.Env VolInfo)
    optKeyword optDetailMod vols :
  VolList.listVols env optKeyword = (map Some vols, None) ->
  fetchesOk env 0 vols ->
  let r := newVolListCmd env optKeyword optDetailMod in
  VolList.trace r
  = VolList.ListVols optKeyword
    :: VolList.Seen
         (Stdout "%v\n"
            [AStr (if optDetailMod then VolList.volumeDetailInfoTableHeader env
                   else VolList.volumeInfoTableHeader env)])
    :: listedFrom env optDetailMod 0 vols
  /\ VolList.outcome r = Returned
  /\ VolList.err r = None
  /\ fetchedNames (VolList.trace r) = map (VolList.Name env) vols.
Proof.
  intros L F. cbv zeta. unfold newVolListCmd, VolList.list. rewrite L.
  rewrite (list_rows_all env optDetailMod vols 0 F).
  unfold VolList.deferred. cbn.
  repeat split.
  rewrite <- (app_nil_r (listedFrom env optDetailMod 0 vols)).
  rewrite fetchedNames_listedFrom. cbn. now rewrite app_nil_r.
Qed.

Lemma list_prints_every_volume_witness :
  fetchedNames (VolList.trace (newVolListCmd (Sample2.lister false) "" false))
  = ["v1"; "v2"; "v3"].
Proof.
  apply (list_prints_every_volume (Sample2.lister false) "" false
           [("v1", 10); ("v2", 20); ("v3", 30)] eq_refl).
  cbn. tauto.
Defined.

(** X7.  When a snapshot request fails, [volume list] stops there: the
    volumes before it have their rows, the failing volume and those after
    it have none, no further snapshot is requested, and the error is
    reported. *)
Theorem list_stops_at_first_failure {VolInfo : Type}
    (env : VolList.Env VolInfo) optKeyword optDetailMod before vol after e :
  VolList.listVols env optKeyword
  = ((map Some before ++ Some vol :: after)%list, None) ->
  fetchesOk env 0 before ->
  snd (VolList.fetch env (List.length before) (VolList.Name env vol)) = Some e ->
  let r := newVolListCmd env optKeyword optDetailMod in
  VolList.trace r
  = (VolList.ListVols optKeyword
     :: VolList.Seen
          (Stdout "%v\n"
             [AStr (if optDetailMod then VolList.volumeDetailInfoTableHeader env
                    else VolList.volumeInfoTableHeader env)])
     :: listedFrom env optDetailMod 0 before
     ++ [VolList.Seen (Call (GetVolumeSimpleInfo (VolList.Name env vol)));
         VolList.Seen (Errout "List cluster volume failed:\n%v\n" [AErr e])])%list
  /\ VolList.err r = Some e
  /\ fetchedNames (VolList.trace r)
     = (map (VolList.Name env) before ++ [VolList.Name env vol])%list.
Proof.
  intros L F E. cbv zeta. unfold newVolListCmd, VolList.list. rewrite L.
  rewrite (list_rows_stop env optDetailMod vol after e before 0 F E).
  unfold VolList.deferred. cbn.
  rewrite <- app_assoc. cbn [app]. repeat split.
  rewrite fetchedNames_listedFrom. reflexivity.
Qed.

Lemma list_stops_at_first_failure_witness :
  fetchedNames (VolList.trace (newVolListCmd (Sample2.lister true) "" true))
  = ["v1"; "v2"].
Proof.
  apply (list_stops_at_first_failure (Sample2.lister true) "" true
           [("v1", 10)] ("v2", 20) [Some ("v3", 30)]
           (RemoteError "timeout") eq_refl).
  - cbn. tauto.
  - reflexivity.
Defined.

(** ** Sorting partitions (volume info) *)

Section StableSort.

Context {A : Type} (key : A -> Z).

Lemma insert_perm x l :
  Permutation (x :: l) (sort.insert (fun a b => (key a <? key b)%Z) x l).
Proof.
  induction l as [|y l IH]; cbn [sort.insert]; [apply Permutation_refl|].
  destruct (key y <? key x)%Z; [|apply Permutation_refl].
  eapply perm_trans; [apply perm_swap|]. now apply perm_skip.
Qed.

Lemma SliceStable_perm l :
  Permutation (sort.SliceStable (fun a b => (key a <? key b)%Z) l) l.
Proof.
  induction l as [|x l IH]; cbn [sort.SliceStable]; [apply perm_nil|].
  eapply perm_trans; [apply Permutation_sym, insert_perm|].
  now apply perm_skip.
Qed.

Lemma insert_sorted x l :
  Sorted (fun a b => key a <= key b) l ->
  Sorted (fun a b => key a <= key b)
         (sort.insert (fun a b => (key a <? key b)%Z) x l).
Proof.
  induction l as [|y l IH]; intros S; cbn [sort.insert].
  - repeat constructor.
  - destruct (key y <? key x)%Z eqn:E.
    + apply Z.ltb_lt in E. apply Sorted_inv in S. destruct S as [S H].
      constructor; [now apply IH|].
      destruct l as [|z l]; cbn [sort.insert].
      * constructor. lia.
      * destruct (key z <? key x)%Z; constructor; [|lia].
        now inversion H.
    + apply Z.ltb_ge in E. constructor; [exact S|]. constructor. exact E.
Qed.

Lemma SliceStable_sorted l :
  Sorted (fun a b => key a <= key b)
         (sort.SliceStable (fun a b => (key a <? key b)%Z) l).
Proof.
  induction l as [|x l IH]; cbn [sort.SliceStable]; [constructor|].
  now apply insert_sorted.
Qed.

Lemma insert_filter k x l :
  filter (fun a => (key a =? k)%Z)
         (sort.insert (fun a b => (key a <? key b)%Z) x l)
  = filter (fun a => (key a =? k)%Z) (x :: l).
Proof.
  induction l as [|y l IH]; [reflexivity|].
  cbn [sort.insert]. destruct (key y <? key x)%Z eqn:E; [|reflexivity].
  cbn [filter] in *. rewrite IH. apply Z.ltb_lt in E.
  destruct (key x =? k)%Z eqn:X, (key y =? k)%Z eqn:Y; try reflexivity.
  apply Z.eqb_eq in X, Y. lia.
Qed.

Lemma SliceStable_stable k l :
  filter (fun a => (key a =? k)%Z)
         (sort.SliceStable (fun a b => (key a <? key b)%Z) l)
  = filter (fun a => (key a =? k)%Z) l.
Proof.
  induction l as [|x l IH]; [reflexivity|].
  cbn [sort.SliceStable]. rewrite insert_filter. cbn [filter]. now rewrite IH.
Qed.

End StableSort.

Lemma SliceStable_StablySorted {A : Type} (key : A -> Z) (l : list A) :
  StablySorted key l (sort.SliceStable (fun a b => (key a <? key b)%Z) l).
Proof.
  split; [apply SliceStable_perm|].
  split; [apply SliceStable_sorted|].
  intros k. apply SliceStable_stable.
Qed.

(** X8.  When the calls it makes succeed, [volume info] prints the
    summary, then (with [-m]) the meta partitions and (with [-d]) the data
    partitions, in that order; the rows of each table are the partitions
    the master returned, in ascending order of partition identifier,
    partitions with the same identifier keeping the master's order. *)
Theorem info_tables_are_sorted {MP DP : Type} (env : VolInfo.Env MP DP)
    optMetaDetail optDataDetail volumeName svv views dps :
  VolInfo.getVolumeSimpleInfo env volumeName = (svv, None) ->
  (optMetaDetail = true ->
   VolInfo.getMetaPartitions env volumeName = (views, None)) ->
  (optDataDetail = true ->
   VolInfo.getDataPartitions env volumeName = (Some dps, None)) ->
  let r := newVolInfoCmd env optMetaDetail optDataDetail volumeName in
  exists ms ds,
    VolInfo.trace r
    = ([VolInfo.Seen (Call (GetVolumeSimpleInfo volumeName));
        VolInfo.Seen (Stdout "Summary:\n%s\n"
                        [AStr (VolInfo.formatSimpleVolView env svv)])]
       ++ (if optMetaDetail
           then VolInfo.GetMetaPartitions volumeName
                :: VolInfo.Seen (Stdout "Meta partitions:\n" [])
                :: VolInfo.Seen
                     (Stdout "%v\n" [AStr (VolInfo.metaPartitionTableHeader env)])
                :: map (metaRow env) ms
           else [])
       ++ (if optDataDetail
           then VolInfo.GetDataPartitions volumeName
                :: VolInfo.Seen (Stdout "Data partitions:\n" [])
                :: VolInfo.Seen
                     (Stdout "%v\n" [AStr (VolInfo.dataPartitionTableHeader env)])
                :: map (dataRow env) ds
           else []))%list
    /\ VolInfo.outcome r = Returned
    /\ StablySorted (VolInfo.metaPartitionID env) views ms
    /\ StablySorted (VolInfo.dataPartitionID env) dps ds.
Proof.
  intros S M D. cbv zeta.
  exists (sort.SliceStable
            (fun a b => (VolInfo.metaPartitionID env a
                         <? VolInfo.metaPartitionID env b)%Z) views),
         (sort.SliceStable
            (fun a b => (VolInfo.dataPartitionID env a
                         <? VolInfo.dataPartitionID env b)%Z) dps).
  split; [|split; [|split; apply SliceStable_StablySorted]];
    unfold newVolInfoCmd, VolInfo.metaDetail, VolInfo.dataDetail,
      VolInfo.metaRows, VolInfo.dataRows; rewrite S;
    destruct optMetaDetail, optDataDetail;
    rewrite ?(M eq_refl), ?(D eq_refl); cbn;
    rewrite ?app_nil_r; reflexivity.
Qed.

Lemma info_tables_are_sorted_witness :
  exists ms ds,
    StablySorted fst [(3, "a"); (1, "b"); (3, "c"); (2, "d")] ms
    /\ StablySorted fst [(9, "x"); (7, "y"); (8, "z")] ds
    /\ VolInfo.outcome (newVolInfoCmd (Sample2.inspector false) true true "v1")
       = Returned.
Proof.
  destruct (info_tables_are_sorted (Sample2.inspector false) true true "v1"
              (Some Sample.v1) [(3, "a"); (1, "b"); (3, "c"); (2, "d")]
              [(9, "x"); (7, "y"); (8, "z")] eq_refl
              (fun _ => eq_refl) (fun _ => eq_refl))
    as (ms & ds & _ & O & Hm & Hd).
  exists ms, ds. split; [exact Hm|]. split; [exact Hd | exact O].
Defined.

(** X9.  When the list of meta partitions cannot be fetched, [volume
    info -m] reports the error and ends the process (with code 1, unless
    [errout] has ended it first), also with [-d]: no table is printed and
    the data partitions are not asked for. *)
Theorem info_stops_when_meta_fails {MP DP : Type} (env : VolInfo.Env MP DP)
    optDataDetail volumeName svv views e :
  VolInfo.getVolumeSimpleInfo env volumeName = (svv, None) ->
  VolInfo.getMetaPartitions env volumeName = (views, Some e) ->
  let r := newVolInfoCmd env true optDataDetail volumeName in
  VolInfo.trace r
  = [VolInfo.Seen (Call (GetVolumeSimpleInfo volumeName));
     VolInfo.Seen (Stdout "Summary:\n%s\n"
                     [AStr (VolInfo.formatSimpleVolView env svv)]);
     VolInfo.GetMetaPartitions volumeName;
     VolInfo.Seen (Errout "Get volume metadata detail information failed:\n%v\n"
                     [AErr e])]
  /\ VolInfo.outcome r
     = Exited (match VolInfo.erroutExit env with
               | Some code => code
               | None => 1
               end).
Proof.
  intros S M. cbv zeta.
  unfold newVolInfoCmd, VolInfo.metaDetail, VolInfo.errout.
  rewrite S, M. destruct (VolInfo.erroutExit env); split; reflexivity.
Qed.

Lemma info_stops_when_meta_fails_witness :
  VolInfo.outcome (newVolInfoCmd (Sample2.inspector true) true true "v1")
  = Exited 1.
Proof.
  apply (info_stops_when_meta_fails (Sample2.inspector true) true "v1"
           (Some Sample.v1) [] (RemoteError "timeout") eq_refl eq_refl).
Defined.

Lemma infoCalls_metaRows {MP DP : Type} (env : VolInfo.Env MP DP) views t :
  infoCalls (VolInfo.metaRows env views ++ t) = infoCalls t.
Proof.
  unfold VolInfo.metaRows.
  induction (sort.SliceStable _ views) as [|v l IH]; [reflexivity|exact IH].
Qed.

Lemma infoCalls_dataRows {MP DP : Type} (env : VolInfo.Env MP DP) dps t :
  infoCalls (VolInfo.dataRows env dps ++ t) = infoCalls t.
Proof.
  unfold VolInfo.dataRows.
  induction (sort.SliceStable _ dps) as [|v l IH]; [reflexivity|exact IH].
Qed.

(** X10.  In every run of [volume info] the calls to the master are: the
    snapshot of the volume, once and first; then at most one request for
    its meta partitions, made only with [-m]; then at most one request for
    its data partitions, made only with [-d]. *)
Theorem info_calls_in_order {MP DP : Type} (env : VolInfo.Env MP DP)
    optMetaDetail optDataDetail volumeName :
  let asked :=
    infoCalls (VolInfo.trace
                 (newVolInfoCmd env optMetaDetail optDataDetail volumeName)) in
  exists more,
    asked = VolInfo.Seen (Call (GetVolumeSimpleInfo volumeName)) :: more
    /\ (more = []
        \/ more = [VolInfo.GetMetaPartitions volumeName]
             /\ optMetaDetail = true
        \/ more = [VolInfo.GetDataPartitions volumeName]
             /\ optDataDetail = true
        \/ more = [VolInfo.GetMetaPartitions volumeName;
                   VolInfo.GetDataPartitions volumeName]
             /\ optMetaDetail = true /\ optDataDetail = true).
Proof.
  cbv zeta.
  assert (Hd : infoCalls (VolInfo.trace
                            (VolInfo.dataDetail env optDataDetail volumeName)) = []
               \/ infoCalls (VolInfo.trace
                               (VolInfo.dataDetail env optDataDetail volumeName))
                  = [VolInfo.GetDataPartitions volumeName]
                  /\ optDataDetail = true).
  { unfold VolInfo.dataDetail, VolInfo.errout.
    destruct optDataDetail; [|left; reflexivity]. right.
    destruct (VolInfo.getDataPartitions env volumeName) as [[dps|] [e|]];
      try destruct (VolInfo.erroutExit env); cbn;
      rewrite ?infoCalls_dataRows; auto. }
  assert (Hm : forall k,
             infoCalls (VolInfo.trace
                          (VolInfo.metaDetail env optMetaDetail volumeName k))
             = infoCalls (VolInfo.trace k)
             \/ optMetaDetail = true
                /\ (infoCalls (VolInfo.trace
                                 (VolInfo.metaDetail env optMetaDetail volumeName k))
                    = [VolInfo.GetMetaPartitions volumeName]
                    \/ infoCalls (VolInfo.trace
                                    (VolInfo.metaDetail env optMetaDetail
                                       volumeName k))
                       = VolInfo.GetMetaPartitions volumeName
                         :: infoCalls (VolInfo.trace k))).
  { intros k. unfold VolInfo.metaDetail, VolInfo.errout.
    destruct optMetaDetail; [|left; reflexivity]. right. split; [reflexivity|].
    destruct (VolInfo.getMetaPartitions env volumeName) as [views [e|]];
      try destruct (VolInfo.erroutExit env); cbn;
      rewrite ?infoCalls_metaRows; auto. }
  specialize (Hm (VolInfo.dataDetail env optDataDetail volumeName)).
  unfold newVolInfoCmd, VolInfo.errout.
  remember (VolInfo.dataDetail env optDataDetail volumeName) as D eqn:HD.
  remember (VolInfo.metaDetail env optMetaDetail volumeName D) as M eqn:HM.
  assert (H : infoCalls (VolInfo.trace M) = []
              \/ infoCalls (VolInfo.trace M)
                 = [VolInfo.GetMetaPartitions volumeName]
                 /\ optMetaDetail = true
              \/ infoCalls (VolInfo.trace M)
                 = [VolInfo.GetDataPartitions volumeName]
                 /\ optDataDetail = true
              \/ infoCalls (VolInfo.trace M)
                 = [VolInfo.GetMetaPartitions volumeName;
                    VolInfo.GetDataPartitions volumeName]
                 /\ optMetaDetail = true /\ optDataDetail = true).
  { destruct Hm as [Hm | [Mt [Hm | Hm]]]; rewrite Hm;
      destruct Hd as [Hd | [Hd Dt]]; rewrite ?Hd; auto 10. }
  clear Hm Hd HM HD.
  destruct (VolInfo.getVolumeSimpleInfo env volumeName) as [svv [e|]];
    try destruct (VolInfo.erroutExit env); cbn;
    eexists; (split; [reflexivity|]); auto.
Qed.

(** ** The daemon before it serves *)

Lemma modifyOpenFiles_quiet env :
  existsb needsConfig (fst (Supervisor.modifyOpenFiles env)) = false.
Proof.
  unfold Supervisor.modifyOpenFiles.
  destruct (Supervisor.getrlimit1 env), (Supervisor.setrlimit env),
    (Supervisor.getrlimit2 env); reflexivity.
Qed.


Lemma main_rlimit_failure env e :
  snd (Supervisor.modifyOpenFiles env) = Some e ->
  Supervisor.main env
  = {| Supervisor.trace :=
         (Supervisor.FlagParse :: fst (Supervisor.modifyOpenFiles env)
          ++ [Supervisor.LogErrorf; Supervisor.LogFlush])%list;
       Supervisor.outcome := Supervisor.Panic e |}.
Proof.
  intros H. unfold Supervisor.main, Supervisor.boot.
  destruct (Supervisor.modifyOpenFiles env) as [evs err]. cbn in H. subst err.
  cbn. rewrite app_nil_r. reflexivity.
Qed.

Lemma main_version env :
  snd (Supervisor.modifyOpenFiles env) = None ->
  Supervisor.configVersion env = true ->
  Supervisor.main env
  = {| Supervisor.trace :=
         [Supervisor.FlagParse;
          Supervisor.Getrlimit; Supervisor.Println "rLimit";
          Supervisor.Setrlimit; Supervisor.Getrlimit;
          Supervisor.Println "Rlimit Final";
          Supervisor.Println "Current Verson: "];
       Supervisor.outcome := Supervisor.Exit 0 |}.
Proof.
  intros M V. unfold Supervisor.main, Supervisor.boot.
  rewrite (modifyOpenFiles_ok env M), V. reflexivity.
Qed.

Lemma main_role_mismatch env :
  snd (Supervisor.modifyOpenFiles env) = None ->
  Supervisor.configVersion env = false ->
  Supervisor.moduleOf (Supervisor.role env) = None ->
  Supervisor.main env
  = {| Supervisor.trace :=
         [Supervisor.FlagParse;
          Supervisor.Getrlimit; Supervisor.Println "rLimit";
          Supervisor.Setrlimit; Supervisor.Getrlimit;
          Supervisor.Println "Rlimit Final";
          Supervisor.LogInfo "Hello, Cfs Storage, Current Version: ";
          Supervisor.LoadConfigFile (Supervisor.configFile env);
          Supervisor.GOMAXPROCS;
          Supervisor.Println "Fatal: role mismatch: "];
       Supervisor.outcome := Supervisor.Exit 1 |}.
Proof.
  intros M V R. unfold Supervisor.main, Supervisor.boot.
  rewrite (modifyOpenFiles_ok env M), V, R. reflexivity.
Qed.

Lemma main_init_log_failure env module e :
  snd (Supervisor.modifyOpenFiles env) = None ->
  Supervisor.configVersion env = false ->
  Supervisor.moduleOf (Supervisor.role env) = Some module ->
  Supervisor.initLog env = Some e ->
  Supervisor.main env
  = {| Supervisor.trace :=
         (preamble env module
          ++ [Supervisor.Println "Fatal: failed to init log - "])%list;
       Supervisor.outcome := Supervisor.Exit 1 |}.
Proof.
  intros M V R L. unfold Supervisor.main, Supervisor.boot, preamble.
  rewrite (modifyOpenFiles_ok env M), V, R, L.
  destruct (negb (Supervisor.profPort env =? "")); reflexivity.
Qed.

(** The ways [main] can fall short of line 182. *)
Lemma not_ready env :
  reachesServe env
  \/ (exists e, snd (Supervisor.modifyOpenFiles env) = Some e)
  \/ (snd (Supervisor.modifyOpenFiles env) = None
      /\ Supervisor.configVersion env = true)
  \/ (snd (Supervisor.modifyOpenFiles env) = None
      /\ Supervisor.configVersion env = false
      /\ Supervisor.moduleOf (Supervisor.role env) = None)
  \/ (exists module e,
        snd (Supervisor.modifyOpenFiles env) = None
        /\ Supervisor.configVersion env = false
        /\ Supervisor.moduleOf (Supervisor.role env) = Some module
        /\ Supervisor.initLog env = Some e).
Proof.
  unfold reachesServe.
  destruct (snd (Supervisor.modifyOpenFiles env)) as [e|];
    [right; left; exists e; reflexivity|].
  destruct (Supervisor.configVersion env);
    [right; right; left; split; reflexivity|].
  destruct (Supervisor.moduleOf (Supervisor.role env)) as [module|];
    [|right; right; right; left; repeat split].
  destruct (Supervisor.initLog env) as [e|].
  - right. right. right. right. exists module, e. repeat split.
  - left. repeat split. discriminate.
Qed.



(** X12.  With [-v], once the limit of open files is raised, [main]
    prints the version and exits with code 0 without reading the
    configuration, initialising the log or building a server. *)
Theorem version_flag_exits_early env :
  snd (Supervisor.modifyOpenFiles env) = None ->
  Supervisor.configVersion env = true ->
  Supervisor.outcome (Supervisor.main env) = Supervisor.Exit 0
  /\ existsb needsConfig (Supervisor.trace (Supervisor.main env)) = false
  /\ In (Supervisor.Println "Current Verson: ")
        (Supervisor.trace (Supervisor.main env)).
Proof.
  intros M V. rewrite (main_version env M V). cbn. repeat split. auto 10.
Qed.

Lemma version_flag_exits_early_witness :
  Supervisor.outcome (Supervisor.main (Sample2.daemon "nobody" true None None))
  = Supervisor.Exit 0.
Proof.
  apply (version_flag_exits_early (Sample2.daemon "nobody" true None None));
    reflexivity.
Defined.

(** X13.  A role other than "master", "metanode" and "datanode" (in
    exactly that spelling) makes [main] print "Fatal: role mismatch" and
    exit with code 1 after it has read the configuration: no server is
    built, the log is not initialised, nothing is started. *)
Theorem unknown_role_builds_no_server env :
  snd (Supervisor.modifyOpenFiles env) = None ->
  Supervisor.configVersion env = false ->
  Supervisor.role env <> "master" ->
  Supervisor.role env <> "metanode" ->
  Supervisor.role env <> "datanode" ->
  Supervisor.main env
  = {| Supervisor.trace :=
         [Supervisor.FlagParse;
          Supervisor.Getrlimit; Supervisor.Println "rLimit";
          Supervisor.Setrlimit; Supervisor.Getrlimit;
          Supervisor.Println "Rlimit Final";
          Supervisor.LogInfo "Hello, Cfs Storage, Current Version: ";
          Supervisor.LoadConfigFile (Supervisor.configFile env);
          Supervisor.GOMAXPROCS;
          Supervisor.Println "Fatal: role mismatch: "];
       Supervisor.outcome := Supervisor.Exit 1 |}.
Proof.
  intros M V R1 R2 R3. apply (main_role_mismatch env M V).
  unfold Supervisor.moduleOf, Supervisor.RoleMeta, Supervisor.RoleMaster,
    Supervisor.RoleData.
  apply String.eqb_neq in R1, R2, R3. rewrite R1, R2, R3. reflexivity.
Qed.

Lemma unknown_role_builds_no_server_witness :
  Supervisor.outcome (Supervisor.main (Sample2.daemon "Master" false None None))
  = Supervisor.Exit 1.
Proof.
  rewrite (unknown_role_builds_no_server
             (Sample2.daemon "Master" false None None));
    [reflexivity | reflexivity | reflexivity | | | ]; cbn; discriminate.
Defined.



(** X15.  [main] calls [Start] only when the limit of open files was
    raised, [-v] was not given, the role is one of the three and the log
    is initialised; it calls [Sync] only when, moreover, [Start] has
    succeeded. *)
Theorem start_and_sync_only_when_ready env :
  (In Supervisor.Start (Supervisor.trace (Supervisor.main env)) ->
   reachesServe env)
  /\ (In Supervisor.Sync (Supervisor.trace (Supervisor.main env)) ->
      reachesServe env /\ Supervisor.start env = None).
Proof.
  assert (N : forall ev, needsConfig ev = true ->
              In ev (Supervisor.trace (Supervisor.main env)) ->
              ev <> Supervisor.LoadConfigFile (Supervisor.configFile env) ->
              ev <> Supervisor.GOMAXPROCS ->
              (forall m, ev <> Supervisor.NewServer m) ->
              (forall p, ev <> Supervisor.GoListenAndServe p) ->
              (forall d m l, ev <> Supervisor.InitLog d m l) ->
              reachesServe env).
  { intros ev Hn Hin N1 N2 N3 N4 N5.
    destruct (not_ready env)
      as [R | [(e & M) | [(M & V) | [(M & V & R) | (m & e & M & V & R & L)]]]];
      [exact R | exfalso ..].
    - rewrite (main_rlimit_failure env e M) in Hin. cbn [Supervisor.trace] in Hin.
      destruct Hin as [<-|Hin]; [discriminate|].
      apply in_app_or in Hin. destruct Hin as [Hin|[<-|[<-|[]]]];
        try discriminate.
      pose proof (modifyOpenFiles_quiet env) as Q.
      rewrite <- not_true_iff_false in Q. apply Q.
      apply existsb_exists. eauto.
    - rewrite (main_version env M V) in Hin. cbn in Hin.
      repeat (destruct Hin as [<-|Hin]; [discriminate|]). exact Hin.
    - rewrite (main_role_mismatch env M V R) in Hin. cbn in Hin.
      repeat (destruct Hin as [<-|Hin];
              [first [discriminate | now apply N1 | now apply N2]|]).
      exact Hin.
    - rewrite (main_init_log_failure env m e M V R L) in Hin.
      cbn [Supervisor.trace] in Hin. apply in_app_or in Hin.
      destruct Hin as [Hin|[<-|[]]]; [|discriminate].
      unfold preamble in Hin. apply in_app_or in Hin.
      destruct Hin as [Hin|Hin].
      + cbn in Hin.
        repeat (destruct Hin as [<-|Hin];
                [first [discriminate | now apply N1 | now apply N2
                       | now apply (N3 (Supervisor.role env))]|]).
        exact Hin.
      + apply in_app_or in Hin. destruct Hin as [Hin|[<-|[]]].
        * destruct (negb (Supervisor.profPort env =? "")); [|exact Hin].
          destruct Hin as [<-|[]]. now apply (N4 (Supervisor.profPort env)).
        * eapply N5. reflexivity. }
  split.
  - intros H. apply (N Supervisor.Start); auto; discriminate.
  - intros H.
    assert (R : reachesServe env) by (apply (N Supervisor.Sync); auto; discriminate).
    split; [exact R|].
    destruct (main_reaches_serve env R) as (module & _ & T & _).
    rewrite T in H. apply in_app_or in H.
    destruct (preamble_quiet env module) as (_ & _ & Q).
    destruct H as [H|H]; [contradiction|].
    unfold Supervisor.serve, Supervisor.interceptSignal in H.
    destruct (Supervisor.start env); [|reflexivity]. exfalso.
    destruct (Supervisor.logFatalExit env); cbn in H;
      repeat (destruct H as [H|H]; [discriminate H|]); exact H.
Qed.

(** X16.  [main] ends with exit code 0 only in answer to [-v], or once
    [Start] has succeeded and [Sync] has returned (or if [LogFatal] itself
    ends the process with code 0). *)
Theorem exit_zero_only_on_success env :
  Supervisor.outcome (Supervisor.main env) = Supervisor.Exit 0 ->
  Supervisor.configVersion env = true
  \/ (reachesServe env /\ Supervisor.start env = None
      /\ Supervisor.syncReturns env = true)
  \/ (Supervisor.start env <> None /\ Supervisor.logFatalExit env = Some 0).
Proof.
  intros H.
  destruct (not_ready env)
    as [R | [(e & M) | [(M & V) | [(M & V & R) | (m & e & M & V & R & L)]]]].
  - destruct (main_reaches_serve env R) as (module & _ & _ & O).
    rewrite O in H. unfold Supervisor.serve, Supervisor.interceptSignal in H.
    destruct (Supervisor.start env) as [e|].
    + right. right. split; [discriminate|].
      destruct (Supervisor.logFatalExit env); cbn in H; congruence.
    + right. left. split; [exact R|]. split; [reflexivity|].
      destruct (Supervisor.syncReturns env); [reflexivity|discriminate H].
  - rewrite (main_rlimit_failure env e M) in H. discriminate H.
  - auto.
  - rewrite (main_role_mismatch env M V R) in H. discriminate H.
  - rewrite (main_init_log_failure env m e M V R L) in H. discriminate H.
Qed.

Lemma exit_zero_only_on_success_witness :
  Supervisor.configVersion (Sample.daemon None) = true
  \/ (reachesServe (Sample.daemon None)
      /\ Supervisor.start (Sample.daemon None) = None
      /\ Supervisor.syncReturns (Sample.daemon None) = true)
  \/ (Supervisor.start (Sample.daemon None) <> None
      /\ Supervisor.logFatalExit (Sample.daemon None) = Some 0).
Proof.
  apply (exit_zero_only_on_success (Sample.daemon None)). reflexivity.
Defined.

(** ** More on set, transfer, delete and create *)

Lemma andThen_Next x step l :
  VolSet.andThen x step = VolSet.Next l ->
  exists l0, x = VolSet.Next l0 /\ step l0 = VolSet.Next l.
Proof. destruct x as [l0|l0 e]; cbn; [eauto|discriminate]. Qed.

Lemma boolean_Next env opt line get set l l' :
  VolSet.boolean env opt line get set l = VolSet.Next l' ->
  VolSet.vv l'
  = (if opt =? "" then VolSet.vv l
     else set (VolSet.vv l) (fst (ParseBool opt)))
  /\ VolSet.isChange l' = VolSet.isChange l || negb (opt =? "").
Proof.
  unfold VolSet.boolean. destruct (opt =? ""); cbn.
  - intros [= <-]. cbn. now rewrite orb_false_r.
  - destruct (ParseBool opt) as [b [e|]]; [discriminate|].
    intros [= <-]. cbn. now rewrite orb_true_r.
Qed.

(** When the walk over the fields ends, the update to send is the
    expected one, and [isChange] tells whether any option held a value. *)
Lemma diff_Next env f v l :
  VolSet.diff env f v = VolSet.Next l ->
  VolSet.call (VolSet.vv l) = expectedUpdate f v
  /\ VolSet.isChange l = anyOverride f.
Proof.
  intros H.
  pose proof (diff_Applied env f v) as A. rewrite H in A.
  cbn [VolSet.flowLocals] in A.
  assert (B : proto.FollowerRead (VolSet.vv l)
              = overrideBool (VolSet.optFollowerRead f) (proto.FollowerRead v)
              /\ proto.Authenticate (VolSet.vv l)
                 = overrideBool (VolSet.optAuthenticate f) (proto.Authenticate v)
              /\ proto.EnableToken (VolSet.vv l)
                 = overrideBool (VolSet.optEnableToken f) (proto.EnableToken v)
              /\ proto.AutoRepair (VolSet.vv l)
                 = overrideBool (VolSet.optAutoRepair f) (proto.AutoRepair v)
              /\ proto.ZoneName (VolSet.vv l)
                 = (if "" =? VolSet.optZoneName f then proto.ZoneName v
                    else VolSet.optZoneName f)
              /\ VolSet.isChange l = anyOverride f).
  { unfold VolSet.diff in H.
    apply andThen_Next in H. destruct H as (l4 & H & [= <-]).
    apply andThen_Next in H. destruct H as (l3 & H & H4).
    apply andThen_Next in H. destruct H as (l2 & H & H3).
    apply andThen_Next in H. destruct H as (l1 & H & H2).
    apply andThen_Next in H. destruct H as (l0 & [= <-] & H1).
    apply boolean_Next in H1, H2, H3, H4.
    destruct H1 as [V1 C1], H2 as [V2 C2], H3 as [V3 C3], H4 as [V4 C4].
    clear A.
    unfold anyOverride, overrideBool, VolSet.zoneName.
    destruct ("" =? VolSet.optZoneName f); cbn;
      rewrite ?V4, ?C4;
      destruct (VolSet.optAutoRepair f =? ""); cbn;
      rewrite ?V3, ?C3;
      destruct (VolSet.optEnableToken f =? ""); cbn;
      rewrite ?V2, ?C2;
      destruct (VolSet.optAuthenticate f =? ""); cbn;
      rewrite ?V1, ?C1;
      destruct (VolSet.optFollowerRead f =? ""); cbn;
      unfold VolSet.replicas, VolSet.capacity, VolSet.start;
      destruct (0 <? VolSet.optCapacity f)%Z, (0 <? VolSet.optReplicas f)%Z;
      cbn; repeat split; reflexivity. }
  destruct B as (B1 & B2 & B3 & B4 & B5 & B6). split; [|exact B6].
  unfold VolSet.call, expectedUpdate.
  rewrite B1, B2, B3, B4, B5.
  rewrite (same_Name _ _ _ A), (same_Owner _ _ _ A),
    (new_Capacity _ _ _ A), (new_DpReplicaNum _ _ _ A).
  reflexivity.
Qed.

(** X17.  When the snapshot is fetched, every boolean option given is a
    boolean literal, some option holds a value and the operator consents
    (by [-y], "yes" or the empty answer), [volume set] makes exactly two
    calls: the fetch, then one update that carries the snapshot's name
    and, field by field, the value given on the command line where there
    is one and the snapshot's value elsewhere, with the key of the
    snapshot's owner. *)
Theorem set_sends_snapshot_with_overrides env f volumeName v :
  getVolumeSimpleInfo env volumeName = (Some v, None) ->
  VolSet.firstInvalid f = None ->
  anyOverride f = true ->
  VolSet.optYes f = true \/ userConfirm env = "" \/ userConfirm env = "yes" ->
  remoteCalls (trace (VolSet.run (newVolSetCmd env f volumeName)))
  = [GetVolumeSimpleInfo volumeName; expectedUpdate f v].
Proof.
  intros G I S Y. rewrite (newVolSetCmd_fetched _ _ _ _ G).
  pose proof (diff_flow env f v) as F.
  destruct (VolSet.diff env f v) as [l|l e] eqn:D.
  - destruct (diff_Next env f v l D) as [Hc Hi].
    cbn [VolSet.run]. rewrite deferErrout_remoteCalls.
    unfold VolSet.apply, VolSet.update. rewrite Hi, S, Hc. cbn [negb].
    assert (C : VolSet.optYes f = true
                \/ negb (userConfirm env =? "yes")
                   && negb (String.length (userConfirm env) =? 0)%nat = false).
    { destruct Y as [Y | [-> | ->]]; auto. }
    destruct C as [-> | C]; cbn [negb].
    + cbn. destruct (reply env (expectedUpdate f v)); reflexivity.
    + destruct (VolSet.optYes f); cbn [negb]; cbn; rewrite ?C; cbn;
        destruct (reply env (expectedUpdate f v)); reflexivity.
  - destruct F as ((s & Hs & _) & _). congruence.
Qed.

Lemma set_sends_snapshot_with_overrides_witness :
  remoteCalls
    (trace (VolSet.run (newVolSetCmd (Sample.env Sample.v1 "")
                          Sample2.capacity80_yes "v1")))
  = [GetVolumeSimpleInfo "v1";
     UpdateVolume "v1" 80 3 true false false false
       "e4774cdda0793f86414e8b9140bb6db4" "default"].
Proof.
  rewrite (set_sends_snapshot_with_overrides (Sample.env Sample.v1 "")
             Sample2.capacity80_yes "v1" Sample.v1);
    [vm_compute | | | |]; auto.
Defined.



(** X19.  A replica count of zero or less is no option at all: [volume
    set] runs exactly as it does when [--replicas] is left out. *)
Theorem set_ignores_nonpositive_replicas env f volumeName :
  VolSet.optReplicas f <= 0 ->
  newVolSetCmd env f volumeName
  = newVolSetCmd env (VolSet.withReplicas f 0) volumeName.
Proof.
  intros H. unfold newVolSetCmd.
  destruct (getVolumeSimpleInfo env volumeName) as [[v|] [e|]]; try reflexivity.
  assert (D : VolSet.diff env f v = VolSet.diff env (VolSet.withReplicas f 0) v).
  { unfold VolSet.diff, VolSet.replicas. cbn [VolSet.optReplicas VolSet.withReplicas].
    assert ((0 <? VolSet.optReplicas f)%Z = false) as ->
      by (apply Z.ltb_ge; exact H).
    reflexivity. }
  rewrite <- D. destruct (VolSet.diff env f v); reflexivity.
Qed.

Lemma set_ignores_nonpositive_replicas_witness :
  newVolSetCmd (Sample.env Sample.v1 "") Sample2.replicasMinus5 "v1"
  = newVolSetCmd (Sample.env Sample.v1 "")
      (VolSet.withReplicas Sample2.replicasMinus5 0) "v1".
Proof.
  apply (set_ignores_nonpositive_replicas (Sample.env Sample.v1 "")
           Sample2.replicasMinus5 "v1").
  cbn. lia.
Defined.



(** X21.  [volume transfer] issues the transfer call only after the
    operator has consented (or [-y]), the snapshot was fetched with status
    0 and the user was found; the call names the volume, the owner found
    in the snapshot as source, the identifier found by the lookup as
    destination, and the force flag; these three are then all its
    calls. *)
Theorem transfer_call_is_prepared env optYes optForce volume userID p :
  In (TransferVol p)
     (remoteCalls (trace (newVolTransferCmd env optYes optForce volume userID))) ->
  exists v u,
    getVolumeSimpleInfo env volume = (Some v, None)
    /\ proto.Status v = 0
    /\ getUserInfo env userID = (Some u, None)
    /\ p = {| proto.Volume := volume; proto.UserSrc := proto.Owner v;
              proto.UserDst := proto.UserID u; proto.Force := optForce |}
    /\ (optYes = true \/ userConfirm env = "yes")
    /\ remoteCalls (trace (newVolTransferCmd env optYes optForce volume userID))
       = [GetVolumeSimpleInfo volume; GetUserInfo userID; TransferVol p].
Proof.
  unfold newVolTransferCmd. rewrite deferErrout_remoteCalls.
  unfold VolTransfer.transfer.
  destruct optYes; cbn [negb];
    try destruct (userConfirm env =? "yes") eqn:Y; cbn [negb];
    try apply String.eqb_eq in Y;
    destruct (getVolumeSimpleInfo env volume) as [[v|] [e|]]; cbn;
    try destruct (proto.Status v =? 0)%Z eqn:S; cbn;
    try destruct (getUserInfo env userID) as [[u|] [e'|]]; cbn;
    intros H; repeat (destruct H as [H|H]; [try discriminate H|]);
    try contradiction;
    injection H as <-; apply Z.eqb_eq in S;
    exists v, u; repeat split; auto.
Qed.

Lemma transfer_call_is_prepared_witness :
  exists v u,
    getVolumeSimpleInfo (Sample.env Sample.v1 "yes") "v1" = (Some v, None)
    /\ proto.Status v = 0
    /\ getUserInfo (Sample.env Sample.v1 "yes") "u2" = (Some u, None).
Proof.
  destruct (transfer_call_is_prepared (Sample.env Sample.v1 "yes") false true
              "v1" "u2"
              {| proto.Volume := "v1"; proto.UserSrc := "u1";
                 proto.UserDst := "u2"; proto.Force := true |})
    as (v & u & G & S & U & _).
  - cbn. auto.
  - exists v, u. auto.
Defined.

Lemma Scanln_is_Confirm t s : In (Scanln s) t -> In Confirm (steps t).
Proof.
  induction t as [|ev t IH]; cbn; [auto|].
  intros [-> | H]; [cbn; auto|].
  destruct (stepOf ev); cbn; auto.
Qed.

Lemma Prefix_In {A : Type} (l p : list A) x : Prefix l p -> In x l -> In x p.
Proof. intros [rest ->] H. apply in_or_app. auto. Qed.

(** X22.  With [-y] none of [create], [set], [delete] and [transfer]
    reads an answer from the operator. *)
Theorem yes_flag_asks_nothing env s :
  (forall f volumeName userID,
     VolCreate.optYes f = true ->
     ~ In (Scanln s) (trace (newVolCreateCmd env f volumeName userID)))
  /\ (forall f volumeName,
        VolSet.optYes f = true ->
        ~ In (Scanln s) (trace (VolSet.run (newVolSetCmd env f volumeName))))
  /\ (forall volumeName,
        ~ In (Scanln s) (trace (newVolDeleteCmd env true volumeName)))
  /\ (forall optForce volume userID,
        ~ In (Scanln s)
             (trace (newVolTransferCmd env true optForce volume userID))).
Proof.
  repeat split.
  - intros f volumeName userID Y. unfold newVolCreateCmd, VolCreate.create, errout.
    rewrite Y. cbn [negb].
    destruct (reply env _); try destruct (erroutExit env); cbn;
      intros H; repeat (destruct H as [H|H]; [discriminate H|]); exact H.
  - intros f volumeName Y H. apply Scanln_is_Confirm in H.
    apply (Prefix_In _ _ _ (set_steps env f volumeName)) in H.
    rewrite Y in H. cbn in H. intuition discriminate.
  - intros volumeName H. apply Scanln_is_Confirm in H.
    apply (Prefix_In _ _ _ (delete_steps env true volumeName)) in H.
    cbn in H. intuition discriminate.
  - intros optForce volume userID H. apply Scanln_is_Confirm in H.
    apply (Prefix_In _ _ _ (transfer_steps env true optForce volume userID)) in H.
    cbn in H. intuition discriminate.
Qed.



(** X24.  When the master rejects the creation call, what [volume
    create] does next rests on [errout]: if [errout] ends the process, the
    error is the last thing written; if it returns, the command goes on to
    print "Create volume success." after the error. *)
Theorem create_failure_then_success_line env f volumeName userID e :
  VolCreate.optYes f = true ->
  reply env (VolCreate.call f volumeName userID) = Some e ->
  newVolCreateCmd env f volumeName userID
  = match erroutExit env with
    | Some code =>
        {| trace := [Call (VolCreate.call f volumeName userID);
                     Errout "Create volume failed case:\n%v\n" [AErr e]];
           outcome := Exited code; err := Some e |}
    | None =>
        {| trace := [Call (VolCreate.call f volumeName userID);
                     Errout "Create volume failed case:\n%v\n" [AErr e];
                     Stdout "Create volume success.\n" []];
           outcome := Returned; err := Some e |}
    end.
Proof.
  intros Y R. unfold newVolCreateCmd, VolCreate.create, errout.
  rewrite Y, R. cbn [negb]. destruct (erroutExit env); reflexivity.
Qed.

Lemma create_failure_then_success_line_witness :
  trace (newVolCreateCmd Sample2.rejecting Sample2.createYes "v1" "u1")
  = [Call (VolCreate.call Sample2.createYes "v1" "u1");
     Errout "Create volume failed case:\n%v\n"
       [AErr (RemoteError "duplicate vol name")];
     Stdout "Create volume success.\n" []].
Proof.
  rewrite (create_failure_then_success_line Sample2.rejecting
             Sample2.createYes "v1" "u1" (RemoteError "duplicate vol name")
             eq_refl eq_refl).
  reflexivity.
Defined.

Lemma start_and_sync_only_when_ready_witness :
  reachesServe (Sample.daemon None)
  /\ Supervisor.start (Sample.daemon None) = None.
Proof.
  apply (start_and_sync_only_when_ready (Sample.daemon None)).
  vm_compute. auto 20.
Defined.
